(** * PageSpeed Checker API: the report adapter and the two handlers

    A shallow embedding of [backend/server.js].  The two request handlers
    ([POST /api/pagespeed] and [POST /api/pagespeed/compare]) are written as
    programs of a small free monad whose effects are the ones the source
    performs: awaiting [axios.get], awaiting [Promise.allSettled] of two
    [axios.get] calls, reading the clock, and raising or catching a
    JavaScript exception.  JavaScript values are an inductive type; numbers
    are binary64 floats, as in the language. *)

From Stdlib Require Import ZArith List String Ascii Bool DecimalString.
From Stdlib Require Import Floats QArith Qpower Qround Qabs Lia Lqa.
Import ListNotations.
Set Warnings "-inexact-float,-register-all".
Local Open Scope string_scope.
Local Open Scope Z_scope.
Local Open Scope list_scope.

(** ** JavaScript values *)

Module JS.

(** A value as the handlers see it: what [JSON.parse] yields, plus
    [undefined].  [Obj props] lists the own enumerable properties in the
    order [Object.entries] enumerates them, each key once. *)
Inductive value : Type :=
| Undefined
| Null
| Bool (b : bool)
| Num (x : float)
| Str (s : string)
| Arr (items : list value)
| Obj (props : list (string * value)).

(** What a [throw] carries.  The handlers read three properties of a caught
    error: [response] (set by axios when the upstream answered with a
    non-2xx status), [code] (set by axios on transport failures) and
    [message]. *)
Record js_error : Type := {
  response : option (Z * value);   (* status, data *)
  code : option string;
  message : string
}.

Definition TypeError (msg : string) : js_error :=
  {| response := None; code := None; message := msg |}.

Fixpoint assoc (k : string) (props : list (string * value)) : value :=
  match props with
  | [] => Undefined
  | (k', v) :: rest => if String.eqb k k' then v else assoc k rest
  end.

(** [o[k] = v] on an object: an existing property keeps its place, a new
    one goes last. *)
Fixpoint set_prop (k : string) (v : value) (props : list (string * value))
  : list (string * value) :=
  match props with
  | [] => [(k, v)]
  | (k', v') :: rest =>
      if String.eqb k k' then (k', v) :: rest else (k', v') :: set_prop k v rest
  end.

Definition nullish (v : value) : bool :=
  match v with Undefined | Null => true | _ => false end.

(** ToBoolean. *)
Definition truthy (v : value) : bool :=
  match v with
  | Undefined | Null => false
  | Bool b => b
  | Num x => negb (PrimFloat.eqb x 0 || PrimFloat.is_nan x)
  | Str s => negb (String.eqb s "")
  | Arr _ | Obj _ => true
  end.

(** [a || b] and [a?.k].  The property names read by the handlers are
    none of those that strings, numbers, booleans or arrays inherit from
    their prototypes, so a read on such a value yields [undefined]. *)
Definition or_else (a b : value) : value := if truthy a then a else b.

Definition get_opt (o : value) (k : string) : value :=
  match o with
  | Obj props => assoc k props
  | _ => Undefined
  end.

(** SameValueZero against a string, as [Array.prototype.includes] uses it. *)
Definition is_str (s : string) (v : value) : bool :=
  match v with Str s' => String.eqb s s' | _ => false end.

Definition includes (l : list string) (v : value) : bool :=
  existsb (fun s => is_str s v) l.

(** The parts of the language runtime the handlers call and whose
    implementation is not part of the repository.  A conversion is [None]
    when it throws a TypeError, as it does on an object whose [toString]
    is not callable and whose [valueOf] yields no primitive. *)
Class Runtime : Type := {
  (** [new URL(v)] returns normally *)
  URL_parses : value -> bool;
  (** ToNumber on strings, arrays and objects *)
  ToNumber_other : value -> option float;
  (** ToString on anything but a string *)
  ToString_other : value -> option string
}.

Section WithRuntime.
Context {rt : Runtime}.

Definition ToNumber (v : value) : option float :=
  match v with
  | Undefined => Some nan
  | Null => Some 0%float
  | Bool true => Some 1%float
  | Bool false => Some 0%float
  | Num x => Some x
  | _ => ToNumber_other v
  end.

Definition ToString (v : value) : option string :=
  match v with
  | Str s => Some s
  | _ => ToString_other v
  end.

(** [a * b] and [a > n] for a number [n]: the number, or the boolean,
    unless the conversion of an operand throws. *)
Definition mul (a b : value) : option float :=
  match ToNumber a with
  | Some x =>
      match ToNumber b with
      | Some y => Some (x * y)%float
      | None => None
      end
  | None => None
  end.

Definition gt (a : value) (n : float) : option bool :=
  match ToNumber a with
  | Some x => Some (n <? x)%float
  | None => None
  end.

End WithRuntime.

(** *** [Math.round]

    The integer nearest to [x], the larger one when two are equally near;
    NaN, the infinities and the zeros are returned as they are, and a
    result of zero keeps the sign of [x]. *)

(** The rational a finite float denotes. *)
Definition SF2Q (x : spec_float) : Q :=
  match x with
  | S754_finite s m e => (inject_Z (cond_Zopp s (Zpos m)) * Qpower 2 e)%Q
  | _ => 0%Q
  end.

Definition round_half_up (q : Q) : Z := Qfloor (q + (1 # 2))%Q.

(** The float of an integer, exact for magnitudes up to 2^53. *)
Definition Z2float (z : Z) : float :=
  if z <? 0 then (- PrimFloat.of_uint63 (Uint63.of_Z (- z)))%float
  else PrimFloat.of_uint63 (Uint63.of_Z z).

Definition int_float (negative : bool) (z : Z) : float :=
  if z =? 0 then (if negative then neg_zero else zero) else Z2float z.

Definition Math_round (x : float) : float :=
  match Prim2SF x with
  | S754_finite s m e =>
      if 0 <=? e then x
      else int_float s (round_half_up (SF2Q (S754_finite s m e)))
  | _ => x
  end.

(** The float [x] is a zero or finite, and denotes the integer [z]. *)
Definition is_integer (x : float) (z : Z) : bool :=
  match Prim2SF x with
  | S754_zero _ => z =? 0
  | S754_finite s m e => Qeq_bool (SF2Q (S754_finite s m e)) (inject_Z z)
  | _ => false
  end.

End JS.
Import JS.

(** ** Effects of a handler *)

(** The configuration object passed to [axios.get]. *)
Record request_config : Type := {
  cfg_url : string;
  cfg_params : list (string * value);
  cfg_timeout : Z
}.

(** How an [axios.get] promise settles: fulfilled with the response body
    ([response.data]), or rejected with an error. *)
Inductive settled : Type :=
| Fulfilled (data : value)
| Rejected (reason : js_error).

(** Programs.  [Await_get cfg k] is [await axios.get(url, cfg)] with the
    settlement handed to [k]; [Await_allSettled cfg1 cfg2 k] is
    [await Promise.allSettled([axios.get(..cfg1), axios.get(..cfg2)])],
    whose continuation runs once both promises have settled;
    [Now k] is [new Date().toISOString()]. *)
Inductive io (A : Type) : Type :=
| Ret (a : A)
| Raise (e : js_error)
| Await_get (cfg : request_config) (k : settled -> io A)
| Await_allSettled (cfg1 cfg2 : request_config) (k : settled -> settled -> io A)
| Now (k : string -> io A).
Arguments Ret {A} a.
Arguments Raise {A} e.
Arguments Await_get {A} cfg k.
Arguments Await_allSettled {A} cfg1 cfg2 k.
Arguments Now {A} k.

Fixpoint bind {A B : Type} (p : io A) (f : A -> io B) : io B :=
  match p with
  | Ret a => f a
  | Raise e => Raise e
  | Await_get cfg k => Await_get cfg (fun s => bind (k s) f)
  | Await_allSettled c1 c2 k => Await_allSettled c1 c2 (fun s1 s2 => bind (k s1 s2) f)
  | Now k => Now (fun t => bind (k t) f)
  end.

(** [try { p } catch (error) { h error }] *)
Fixpoint try_catch {A : Type} (p : io A) (h : js_error -> io A) : io A :=
  match p with
  | Ret a => Ret a
  | Raise e => h e
  | Await_get cfg k => Await_get cfg (fun s => try_catch (k s) h)
  | Await_allSettled c1 c2 k => Await_allSettled c1 c2 (fun s1 s2 => try_catch (k s1 s2) h)
  | Now k => Now (fun t => try_catch (k t) h)
  end.

Declare Scope io_scope.
Delimit Scope io_scope with io.
Notation "x <- p ;; q" := (bind p (fun x => q))
  (at level 61, p at next level, right associativity) : io_scope.
Local Open Scope io_scope.

(** [await axios.get(...)]: a rejection is thrown at the [await]. *)
Definition axios_get (cfg : request_config) : io value :=
  Await_get cfg (fun s => match s with Fulfilled d => Ret d | Rejected e => Raise e end).

Definition date_now : io string := Now (fun t => Ret t).

(** [o.k]: reading a property of [undefined] or [null] throws. *)
Definition get (o : value) (k : string) : io value :=
  if nullish o then Raise (TypeError "Cannot read properties of undefined")
  else Ret (get_opt o k).

(** An operation whose conversion of an operand may throw. *)
Definition converted {A : Type} (o : option A) : io A :=
  match o with
  | Some a => Ret a
  | None => Raise (TypeError "Cannot convert object to primitive value")
  end.

(** [Object.entries(o)]; the keys of an array are its indices, those of a
    string the indices of its characters. *)
Fixpoint indexed (i : nat) (l : list value) : list (string * value) :=
  match l with
  | [] => []
  | v :: rest => (NilEmpty.string_of_uint (Nat.to_uint i), v) :: indexed (S i) rest
  end.

Fixpoint chars (s : string) : list value :=
  match s with
  | EmptyString => []
  | String c rest => Str (String c EmptyString) :: chars rest
  end.

Definition entries_of (o : value) : list (string * value) :=
  match o with
  | Obj props => props
  | Arr items => indexed 0 items
  | Str s => indexed 0 (chars s)
  | _ => []
  end.

Definition entries (o : value) : io (list (string * value)) :=
  if nullish o then Raise (TypeError "Cannot convert undefined or null to object")
  else Ret (entries_of o).

(** The environment of one request: how the upstream settles each call,
    and the time. *)
Record world : Type := {
  upstream : request_config -> settled;
  clock : string
}.

Inductive result (A : Type) : Type :=
| Ok (a : A)
| Err (e : js_error).
Arguments Ok {A} a.
Arguments Err {A} e.

(** Running a program: its result and the upstream calls it issued, in
    order. *)
Fixpoint run {A : Type} (w : world) (p : io A) : result A * list request_config :=
  match p with
  | Ret a => (Ok a, [])
  | Raise e => (Err e, [])
  | Await_get cfg k =>
      let (r, t) := run w (k (upstream w cfg)) in (r, cfg :: t)
  | Await_allSettled c1 c2 k =>
      let (r, t) := run w (k (upstream w c1) (upstream w c2)) in (r, c1 :: c2 :: t)
  | Now k => run w (k (clock w))
  end.

(** ** The server *)

Module Server.

Record http_response : Type := {
  status : Z;
  json : value
}.

(** [res.status(st).json(v)]; a bare [res.json(v)] answers 200. *)
Definition res_json (st : Z) (v : value) : http_response :=
  {| status := st; json := v |}.

Definition PAGESPEED_API_URL : string :=
  "https://www.googleapis.com/pagespeedonline/v5/runPagespeed".

(** The default of a destructuring pattern applies to [undefined] only. *)
Definition with_default (v d : value) : value :=
  match v with Undefined => d | _ => v end.

(** [xs.forEach(f)], with the object [f] mutates passed along. *)
Definition forEach {S : Type} (xs : value) (f : value -> S -> S) (s : S) : io S :=
  match xs with
  | Arr items => Ret (fold_left (fun acc x => f x acc) items s)
  | Undefined | Null => Raise (TypeError "Cannot read properties of undefined")
  | _ => Raise (TypeError "categories.forEach is not a function")
  end.

(** The double-quote character, for messages that contain it. *)
Definition quote : string := String "034"%char EmptyString.

(** [opportunities.slice(0, 5)] *)
Definition slice_0_5 (l : list value) : list value := firstn 5 l.

(** The fixed responses of the handlers, named after their [error] label. *)
Definition URL_is_required : http_response :=
  res_json 400 (Obj [
    ("error", Str "URL is required");
    ("message", Str "Please provide a valid URL to analyze")]).

Definition Invalid_URL : http_response :=
  res_json 400 (Obj [
    ("error", Str "Invalid URL");
    ("message",
     Str "Please provide a valid URL format (including http:// or https://)")]).

Definition Invalid_strategy : http_response :=
  res_json 400 (Obj [
    ("error", Str "Invalid strategy");
    ("message",
     Str ("Strategy must be either " ++ quote ++ "mobile" ++ quote ++ " or "
          ++ quote ++ "desktop" ++ quote))]).

Definition API_Key_Error : http_response :=
  res_json 403 (Obj [
    ("error", Str "API Key Error");
    ("message",
     Str "Invalid or missing Google API key. Please check your API key configuration.")]).

Definition Rate_Limited : http_response :=
  res_json 429 (Obj [
    ("error", Str "Rate Limited");
    ("message", Str "Too many requests to Google API. Please try again later.")]).

Definition Timeout : http_response :=
  res_json 408 (Obj [
    ("error", Str "Timeout");
    ("message", Str "Request timed out. The website might be slow to respond.")]).

Definition Internal_Server_Error : http_response :=
  res_json 500 (Obj [
    ("error", Str "Internal Server Error");
    ("message", Str "An unexpected error occurred")]).

Definition Compare_Invalid_URL : http_response :=
  res_json 400 (Obj [
    ("error", Str "Invalid URL");
    ("message", Str "Please provide a valid URL")]).

Definition Compare_Internal_Server_Error : http_response :=
  res_json 500 (Obj [
    ("error", Str "Internal Server Error");
    ("message", Str "Failed to compare mobile and desktop scores")]).

Definition success (result : value) : http_response :=
  res_json 200 (Obj [("success", Bool true); ("data", result)]).

Definition pagespeed_config (params : list (string * value)) : request_config :=
  {| cfg_url := PAGESPEED_API_URL; cfg_params := params; cfg_timeout := 30000 |}.

Section Handlers.
Context {rt : Runtime}.

(** [process.env.GOOGLE_API_KEY] *)
Variable PAGESPEED_API_KEY : option string.

Definition key_value : value :=
  match PAGESPEED_API_KEY with Some k => Str k | None => Undefined end.

Definition isValidUrl (string : value) : bool := URL_parses string.

(** *** POST /api/pagespeed *)

(** Lines 72-85: the parameters of the upstream query. *)
Definition build_params (url strategy categories : value)
  : io (list (string * value)) :=
  let params := [("url", url); ("strategy", strategy)] in
  let params :=
    if truthy key_value then set_prop "key" key_value params else params in
  forEach categories (fun category params => set_prop "category" category params)
    params.

(** Lines 119-129: the loop over [Object.entries(metrics)]. *)
Fixpoint opportunities_loop (es : list (string * value)) (opportunities : list value)
  : io (list value) :=
  match es with
  | [] => Ret opportunities
  | (key, audit) :: rest =>
      details <- get audit "details" ;;
      if truthy details then
        savings <- get details "overallSavingsMs" ;;
        above <- converted (gt savings 100) ;;
        if above then
          title <- get audit "title" ;;
          description <- get audit "description" ;;
          displayValue <- get audit "displayValue" ;;
          opportunities_loop rest
            (opportunities ++
               [Obj [("title", title); ("description", description);
                     ("savings", savings); ("displayValue", displayValue)]])
        else opportunities_loop rest opportunities
      else opportunities_loop rest opportunities
  end.

(** One entry of [result.metrics]; the source writes it out five times. *)
Definition metric_sample (audit : value) : io value :=
  score <- get audit "score" ;;
  displayValue <- get audit "displayValue" ;;
  numericValue <- get audit "numericValue" ;;
  Ret (Obj [("score", score); ("displayValue", displayValue);
            ("numericValue", numericValue)]).

(** Lines 98-167: from [response.data] to [result]. *)
Definition extract_report (url strategy data : value) : io value :=
  lighthouseResult <- get data "lighthouseResult" ;;
  loadingExperience <- get data "loadingExperience" ;;
  metrics <- get lighthouseResult "audits" ;;
  categories <- get lighthouseResult "categories" ;;
  performance <- get categories "performance" ;;
  score <- get performance "score" ;;
  performanceScore <- converted (mul score (Num 100)) ;;
  firstContentfulPaint <- get metrics "first-contentful-paint" ;;
  largestContentfulPaint <- get metrics "largest-contentful-paint" ;;
  firstInputDelay <- get metrics "max-potential-fid" ;;
  cumulativeLayoutShift <- get metrics "cumulative-layout-shift" ;;
  speedIndex <- get metrics "speed-index" ;;
  totalBlockingTime <- get metrics "total-blocking-time" ;;
  es <- entries metrics ;;
  opportunities <- opportunities_loop es [] ;;
  timestamp <- date_now ;;
  fcp <- metric_sample firstContentfulPaint ;;
  lcp <- metric_sample largestContentfulPaint ;;
  si <- metric_sample speedIndex ;;
  tbt <- metric_sample totalBlockingTime ;;
  cls <- metric_sample cumulativeLayoutShift ;;
  audits <- get lighthouseResult "audits" ;;
  final_screenshot <- get audits "final-screenshot" ;;
  Ret (Obj [
    ("url", url);
    ("strategy", strategy);
    ("timestamp", Str timestamp);
    ("performanceScore", Num (Math_round performanceScore));
    ("metrics", Obj [
       ("firstContentfulPaint", fcp);
       ("largestContentfulPaint", lcp);
       ("speedIndex", si);
       ("totalBlockingTime", tbt);
       ("cumulativeLayoutShift", cls)]);
    ("opportunities", Arr (slice_0_5 opportunities));
    ("fieldData", or_else loadingExperience Null);
    ("screenshot",
       or_else (get_opt (get_opt final_screenshot "details") "data") Null)]).

(** Lines 49-61 and 63-69: the checks on [url] and on [strategy]; [Some r]
    is an early [return] of the response [r]. *)
Definition validate_url (url : value) : option http_response :=
  if negb (truthy url) then Some URL_is_required
  else if negb (isValidUrl url) then Some Invalid_URL
  else None.

Definition validate_strategy (strategy : value) : option http_response :=
  if negb (includes ["mobile"; "desktop"] strategy) then Some Invalid_strategy
  else None.

(** Lines 38-172: the [try] block. *)
Definition analyze_try (body : list (string * value)) : io http_response :=
  let url := assoc "url" body in
  let strategy := with_default (assoc "strategy" body) (Str "mobile") in
  let categories :=
    with_default (assoc "categories" body) (Arr [Str "performance"]) in
  match validate_url url with
  | Some r => Ret r
  | None =>
  match validate_strategy strategy with
  | Some r => Ret r
  | None =>
    params <- build_params url strategy categories ;;
    data <- axios_get (pagespeed_config params) ;;
    result <- extract_report url strategy data ;;
    Ret (success result)
  end end.

(** Lines 174-224: the [catch] block.  The template literals convert
    [message] to a string, which may throw; an error thrown here leaves
    the handler. *)
Definition analyze_catch (error : js_error) : io http_response :=
  match response error with
  | Some (status, errorData) =>
      let message :=
        or_else (get_opt (get_opt errorData "error") "message")
                (Str "API request failed") in
      if status =? 400 then
        text <- converted (ToString message) ;;
        Ret (res_json 400 (Obj [
          ("error", Str "Bad Request");
          ("message", Str ("Google API Error: " ++ text));
          ("details", or_else (get_opt (get_opt errorData "error") "errors") Null)]))
      else if status =? 403 then Ret API_Key_Error
      else if status =? 429 then Ret Rate_Limited
      else
        text <- converted (ToString message) ;;
        Ret (res_json status (Obj [
          ("error", Str "API Error");
          ("message", Str ("Google API Error: " ++ text))]))
  | None =>
      Ret match code error with
          | Some "ECONNABORTED" => Timeout
          | _ => Internal_Server_Error
          end
  end.

Definition analyze (body : list (string * value)) : io http_response :=
  try_catch (analyze_try body) analyze_catch.

(** *** POST /api/pagespeed/compare *)

(** Lines 253-265 (and again 267-279): one settlement to one entry of
    [results]. *)
Definition strategy_result (settlement : settled) : io value :=
  match settlement with
  | Fulfilled data =>
      lighthouseResult <- get data "lighthouseResult" ;;
      categories <- get lighthouseResult "categories" ;;
      performance <- get categories "performance" ;;
      score <- get performance "score" ;;
      mobileScore <- converted (mul score (Num 100)) ;;
      Ret (Obj [("score", Num (Math_round mobileScore));
                ("status", Str "success")])
  | Rejected reason =>
      Ret (Obj [("score", Null);
                ("status", Str "failed");
                ("error", Str (message reason))])
  end.

Definition compare_config (url : value) (strategy : string) : request_config :=
  {| cfg_url := PAGESPEED_API_URL;
     cfg_params := [("url", url); ("strategy", Str strategy);
                    ("key", key_value); ("category", Str "performance")];
     cfg_timeout := 30000 |}.

Definition compare_try (body : list (string * value)) : io http_response :=
  let url := assoc "url" body in
  if negb (truthy url) || negb (isValidUrl url) then Ret Compare_Invalid_URL
  else
    Await_allSettled (compare_config url "mobile") (compare_config url "desktop")
      (fun mobileResponse desktopResponse =>
         mobile <- strategy_result mobileResponse ;;
         desktop <- strategy_result desktopResponse ;;
         timestamp <- date_now ;;
         Ret (res_json 200 (Obj [
           ("success", Bool true);
           ("url", url);
           ("timestamp", Str timestamp);
           ("data", Obj [("mobile", mobile); ("desktop", desktop)])]))).

Definition compare_catch (error : js_error) : http_response :=
  Compare_Internal_Server_Error.

Definition compare (body : list (string * value)) : io http_response :=
  try_catch (compare_try body) (fun error => Ret (compare_catch error)).

End Handlers.
End Server.
Import Server.

(** ** Absolute URLs *)

(** The first two states of the URL Standard's parser, which [new URL]
    runs: the input is stripped of leading C0 controls and spaces, tabs and
    newlines are removed, and with no base URL the parse fails unless what
    remains starts with a letter followed by letters, digits, [+], [-] or
    [.] up to a colon. *)
Module URL.

Definition is_c0_or_space (c : ascii) : bool := (nat_of_ascii c <=? 32)%nat.

Definition is_tab_or_newline (c : ascii) : bool :=
  let n := nat_of_ascii c in
  ((n =? 9) || (n =? 10) || (n =? 13))%nat.

Definition is_alpha (c : ascii) : bool :=
  let n := nat_of_ascii c in
  (((65 <=? n) && (n <=? 90)) || ((97 <=? n) && (n <=? 122)))%nat.

Definition is_digit (c : ascii) : bool :=
  let n := nat_of_ascii c in ((48 <=? n) && (n <=? 57))%nat.

Definition is_scheme_char (c : ascii) : bool :=
  let n := nat_of_ascii c in
  (is_alpha c || is_digit c || (n =? 43) || (n =? 45) || (n =? 46))%nat.

Fixpoint strip_leading (s : string) : string :=
  match s with
  | EmptyString => EmptyString
  | String c rest => if is_c0_or_space c then strip_leading rest else s
  end.

Fixpoint remove_tab_newline (s : string) : string :=
  match s with
  | EmptyString => EmptyString
  | String c rest =>
      if is_tab_or_newline c then remove_tab_newline rest
      else String c (remove_tab_newline rest)
  end.

Fixpoint scheme_state (s : string) : bool :=
  match s with
  | EmptyString => false
  | String c rest =>
      if is_scheme_char c then scheme_state rest else (nat_of_ascii c =? 58)%nat
  end.

Definition scheme_start_state (s : string) : bool :=
  match s with
  | EmptyString => false
  | String c rest => is_alpha c && scheme_state rest
  end.

Definition has_scheme (input : string) : bool :=
  scheme_start_state (remove_tab_newline (strip_leading input)).

End URL.

(** A runtime on which requests can be evaluated: a URL is accepted if and
    only if it is a string with a scheme; the conversion of an object that
    has a [toString] property of its own throws (what [JSON.parse] yields
    holds no function), and the other conversions yield NaN and a fixed
    string. *)
Definition own_toString (v : value) : bool :=
  match v with
  | Obj props => existsb (fun p => String.eqb (fst p) "toString") props
  | _ => false
  end.

Definition sample_runtime : Runtime := {|
  URL_parses := fun v => match v with Str s => URL.has_scheme s | _ => false end;
  ToNumber_other := fun v => if own_toString v then None else Some nan;
  ToString_other := fun v => if own_toString v then None else Some "[object Object]"
|}.

(** ** Readings of the handlers

    The vocabulary the theorems are stated in: the pure functions the
    handlers compute on the inputs where nothing throws, and the
    properties of programs used to relate the two. *)

(** A program is [local] when it issues no upstream call and throws
    nothing but [TypeError]s: the errors the [catch] blocks see with
    neither a [response] nor a [code]. *)
Definition is_TypeError (e : js_error) : Prop :=
  response e = None /\ code e = None.

Definition local {A : Type} (p : io A) : Prop :=
  forall w, snd (run w p) = [] /\ forall e, fst (run w p) = Err e -> is_TypeError e.

Section Readings.
Context {rt : Runtime}.
Variable PAGESPEED_API_KEY : option string.

(** Whether the conversion of a value to a number goes through, and the
    number it yields then. *)
Definition converts (v : value) : bool :=
  match ToNumber v with Some _ => true | None => false end.

Definition number_of (v : value) : float :=
  match ToNumber v with Some x => x | None => nan end.

(** What the loop pushes for an audit, and for which audits it does. *)
Definition qualifies (audit : value) : bool :=
  truthy (get_opt audit "details")
  && match gt (get_opt (get_opt audit "details") "overallSavingsMs") 100 with
     | Some above => above
     | None => false
     end.

(** The audits the loop passes without throwing: the entry is an object,
    and its savings, if it has details, convert to a number. *)
Definition audit_ok (audit : value) : bool :=
  negb (nullish audit)
  && (negb (truthy (get_opt audit "details"))
      || converts (get_opt (get_opt audit "details") "overallSavingsMs")).

Definition opportunity (audit : value) : value :=
  Obj [("title", get_opt audit "title");
       ("description", get_opt audit "description");
       ("savings", get_opt (get_opt audit "details") "overallSavingsMs");
       ("displayValue", get_opt audit "displayValue")].

Definition audits_of (data : value) : value :=
  get_opt (get_opt data "lighthouseResult") "audits".

Definition category_score (data : value) : value :=
  get_opt (get_opt (get_opt (get_opt data "lighthouseResult") "categories")
             "performance") "score".

(** The five metrics of the report: the audit key read and the name it is
    reported under. *)
Definition metric_keys : list (string * string) :=
  [("first-contentful-paint", "firstContentfulPaint");
   ("largest-contentful-paint", "largestContentfulPaint");
   ("speed-index", "speedIndex");
   ("total-blocking-time", "totalBlockingTime");
   ("cumulative-layout-shift", "cumulativeLayoutShift")].

(** The payloads on which nothing in the extractor throws: the
    performance category is there and its score converts to a number, the
    five metric audits are there, and every entry of the audits passes the
    loop. *)
Definition payload_ok (data : value) : bool :=
  negb (nullish (get_opt (get_opt (get_opt data "lighthouseResult") "categories")
                   "performance"))
  && converts (category_score data)
  && forallb (fun k => negb (nullish (get_opt (audits_of data) (fst k)))) metric_keys
  && forallb (fun e => audit_ok (snd e)) (entries_of (audits_of data)).

(** [result.metrics.<name>] as a function of the audit it is read from. *)
Definition metric_of (audit : value) : value :=
  Obj [("score", get_opt audit "score");
       ("displayValue", get_opt audit "displayValue");
       ("numericValue", get_opt audit "numericValue")].

(** [result] as a function of the payload and the time, for the payloads
    on which extraction goes through. *)
Definition report_of (url strategy data : value) (timestamp : string) : value :=
  let audits := audits_of data in
  Obj [
    ("url", url);
    ("strategy", strategy);
    ("timestamp", Str timestamp);
    ("performanceScore",
       Num (Math_round (number_of (category_score data) * 100)));
    ("metrics", Obj [
       ("firstContentfulPaint", metric_of (get_opt audits "first-contentful-paint"));
       ("largestContentfulPaint", metric_of (get_opt audits "largest-contentful-paint"));
       ("speedIndex", metric_of (get_opt audits "speed-index"));
       ("totalBlockingTime", metric_of (get_opt audits "total-blocking-time"));
       ("cumulativeLayoutShift", metric_of (get_opt audits "cumulative-layout-shift"))]);
    ("opportunities",
       Arr (slice_0_5 (map opportunity
                         (filter qualifies (map snd (entries_of audits))))));
    ("fieldData", or_else (get_opt data "loadingExperience") Null);
    ("screenshot",
       or_else (get_opt (get_opt (get_opt audits "final-screenshot") "details")
                  "data") Null)].

(** The upstream parameters for an array of categories. *)
Definition params_of (url strategy : value) (categories : list value)
  : list (string * value) :=
  fold_left (fun params category => set_prop "category" category params)
    categories
    (if truthy (key_value PAGESPEED_API_KEY)
     then [("url", url); ("strategy", strategy);
           ("key", key_value PAGESPEED_API_KEY)]
     else [("url", url); ("strategy", strategy)]).

(** The [category] entries of a parameter object. *)
Definition is_category (p : string * value) : bool := String.eqb (fst p) "category".

(** The spec's StrategyOutcome of a settlement: a fulfilled call is
    reported with its rounded score, a rejected one with the message of its
    error. *)
Definition StrategyOutcome (settlement : settled) : value :=
  match settlement with
  | Fulfilled data =>
      Obj [("score", Num (Math_round (number_of (category_score data) * 100)));
           ("status", Str "success")]
  | Rejected reason =>
      Obj [("score", Null); ("status", Str "failed");
           ("error", Str (message reason))]
  end.

(** A settlement is [scored] when it is a rejection, or a fulfilment whose
    payload has the performance category the score is read from, with a
    score that converts to a number. *)
Definition scored (settlement : settled) : bool :=
  match settlement with
  | Fulfilled data =>
      negb (nullish (get_opt (get_opt (get_opt data "lighthouseResult")
                                "categories") "performance"))
      && converts (category_score data)
  | Rejected _ => true
  end.

Definition ComparisonResult (url : value) (timestamp : string)
  (mobile desktop : value) : http_response :=
  res_json 200 (Obj [
    ("success", Bool true);
    ("url", url);
    ("timestamp", Str timestamp);
    ("data", Obj [("mobile", mobile); ("desktop", desktop)])]).

End Readings.

(** [z] is an integer nearest to [q], and the one away from zero when [q]
    lies halfway between two integers. *)
Definition nearest_ties_away (q : Q) (z : Z) : Prop :=
  (Qabs (q - inject_Z z) <= 1 # 2
   /\ (Qabs (q - inject_Z z) == 1 # 2 -> Qabs q < Qabs (inject_Z z)))%Q.

(** ** Sample requests, payloads and worlds *)

Module Samples.

Definition timestamp : string := "2024-05-01T12:00:00.000Z".

Definition example_url : value := Str "https://example.com".

(** An audit of a metric, and an audit with estimated savings. *)
Definition metric_audit (score : value) (displayValue : string) (numericValue : float)
  : value :=
  Obj [("title", Str "metric"); ("score", score);
       ("displayValue", Str displayValue); ("numericValue", Num numericValue)].

Definition savings_audit (title : string) (savings : float) : value :=
  Obj [("title", Str title); ("description", Str "how to fix it");
       ("score", Num 0.5); ("displayValue", Str "Potential savings");
       ("details", Obj [("type", Str "opportunity");
                        ("overallSavingsMs", Num savings)])].

Definition five_metrics (tbt : list (string * value)) : list (string * value) :=
  [("first-contentful-paint", metric_audit (Num 0.98) "0.9 s" 912.5);
   ("largest-contentful-paint", metric_audit Null "" 0);
   ("speed-index", metric_audit (Num 0.75) "2.1 s" 2100)]
  ++ tbt ++
  [("cumulative-layout-shift", metric_audit (Num 1) "0" 0)].

Definition total_blocking_time : list (string * value) :=
  [("total-blocking-time", metric_audit (Num 0.6) "350 ms" 350)].

Definition seven_audits : list (string * value) :=
  [("unused-javascript", savings_audit "a" 50);
   ("render-blocking-resources", savings_audit "b" 150);
   ("unused-css-rules", savings_audit "c" 900);
   ("uses-text-compression", savings_audit "d" 101);
   ("modern-image-formats", savings_audit "e" 99);
   ("server-response-time", savings_audit "f" 5000);
   ("offscreen-images", savings_audit "g" 200)].

Definition payload (score : value) (audits : list (string * value)) : value :=
  Obj [("lighthouseResult",
        Obj [("categories", Obj [("performance", Obj [("score", score)])]);
             ("audits", Obj audits)])].

Definition full_payload (score : value) : value :=
  payload score (five_metrics total_blocking_time ++ seven_audits).

Definition answering (settlement : settled) : world :=
  {| upstream := fun _ => settlement; clock := timestamp |}.

Definition timeout_error : js_error :=
  {| response := None; code := Some "ECONNABORTED";
     message := "timeout of 30000ms exceeded" |}.

Definition forbidden (errorData : value) : js_error :=
  {| response := Some (403, errorData); code := Some "ERR_BAD_REQUEST";
     message := "Request failed with status code 403" |}.

(** A world in which the mobile call settles as [mobile] and the desktop
    call as [desktop]. *)
Definition settling (mobile desktop : settled) : world :=
  {| upstream := fun cfg =>
       if is_str "mobile" (assoc "strategy" (cfg_params cfg)) then mobile
       else desktop;
     clock := timestamp |}.

End Samples.

(** ** Running programs: general facts *)

Section RunFacts.
Context {A B : Type}.

Lemma run_bind (w : world) (p : io A) (f : A -> io B) :
  run w (bind p f) =
  match run w p with
  | (Ok a, t) => let (r, t') := run w (f a) in (r, t ++ t')
  | (Err e, t) => (Err e, t)
  end.
Proof.
  induction p as [a | e | cfg k IH | c1 c2 k IH | k IH]; simpl.
  - destruct (run w (f a)); reflexivity.
  - reflexivity.
  - rewrite IH. destruct (run w (k (upstream w cfg))) as [[a | e] t].
    + destruct (run w (f a)); reflexivity.
    + reflexivity.
  - rewrite IH.
    destruct (run w (k (upstream w c1) (upstream w c2))) as [[a | e] t].
    + destruct (run w (f a)); reflexivity.
    + reflexivity.
  - apply IH.
Qed.

Lemma run_bind_Ok (w : world) (p : io A) (f : A -> io B) (b : B) t :
  run w (bind p f) = (Ok b, t) ->
  exists a t1 t2,
    run w p = (Ok a, t1) /\ run w (f a) = (Ok b, t2) /\ t = t1 ++ t2.
Proof.
  rewrite run_bind. destruct (run w p) as [[a | e] t1]; [| discriminate].
  destruct (run w (f a)) as [r t2] eqn:E. intros H. inversion H; subst.
  exists a, t1, t2. auto.
Qed.

End RunFacts.

Lemma run_try_catch {A : Type} (w : world) (p : io A) (h : js_error -> io A) :
  run w (try_catch p h) =
  match run w p with
  | (Ok a, t) => (Ok a, t)
  | (Err e, t) => let (r, t') := run w (h e) in (r, t ++ t')
  end.
Proof.
  induction p as [a | e | cfg k IH | c1 c2 k IH | k IH]; simpl.
  - reflexivity.
  - destruct (run w (h e)); reflexivity.
  - rewrite IH. destruct (run w (k (upstream w cfg))) as [[a | e] t].
    + reflexivity.
    + destruct (run w (h e)); reflexivity.
  - rewrite IH.
    destruct (run w (k (upstream w c1) (upstream w c2))) as [[a | e] t].
    + reflexivity.
    + destruct (run w (h e)); reflexivity.
  - apply IH.
Qed.

Lemma local_Ret {A : Type} (a : A) : local (Ret a).
Proof. intros w. split; [reflexivity | discriminate]. Qed.

Lemma local_TypeError {A : Type} (msg : string) : local (@Raise A (TypeError msg)).
Proof.
  intros w. split; [reflexivity |].
  simpl. intros e H. inversion H. split; reflexivity.
Qed.

Lemma local_bind {A B : Type} (p : io A) (f : A -> io B) :
  local p -> (forall a, local (f a)) -> local (bind p f).
Proof.
  intros Hp Hf w. rewrite run_bind.
  destruct (Hp w) as [Ht He]. destruct (run w p) as [[a | e] t]; simpl in *; subst.
  - destruct (Hf a w) as [Ht' He']. destruct (run w (f a)) as [r t']; simpl in *.
    subst. split; [reflexivity | exact He'].
  - split; [reflexivity |].
    intros e' H. inversion H; subst. apply He. reflexivity.
Qed.

Lemma local_get (o : value) (k : string) : local (get o k).
Proof.
  unfold get. destruct (nullish o); [apply local_TypeError | apply local_Ret].
Qed.

Lemma local_converted {A : Type} (o : option A) : local (converted o).
Proof. destruct o; [apply local_Ret | apply local_TypeError]. Qed.

Lemma local_entries (o : value) : local (entries o).
Proof.
  unfold entries. destruct (nullish o); [apply local_TypeError | apply local_Ret].
Qed.

Lemma local_date_now : local date_now.
Proof. intros w. split; [reflexivity | discriminate]. Qed.

Lemma local_Now {A : Type} (k : string -> io A) :
  (forall t, local (k t)) -> local (Now k).
Proof. intros H w. simpl. apply H. Qed.

Lemma truthy_not_nullish (v : value) : truthy v = true -> nullish v = false.
Proof. destruct v; simpl; congruence. Qed.

Ltac local_steps :=
  repeat first
    [ apply local_Ret
    | apply local_get
    | apply local_converted
    | apply local_entries
    | apply local_date_now
    | apply local_bind; [| intros ?] ].

(** ** The report extractor *)

Section Extractor.
Context {rt : Runtime}.

#[local] Arguments Math_round : simpl never.
#[local] Arguments ToNumber : simpl never.

Lemma get_opt_nullish (o : value) (k : string) :
  nullish o = true -> get_opt o k = Undefined.
Proof. destruct o; simpl; congruence. Qed.

Lemma nullish_get_opt (o : value) (k : string) :
  nullish (get_opt o k) = false -> nullish o = false.
Proof.
  destruct (nullish o) eqn:E; [| reflexivity].
  rewrite get_opt_nullish by assumption. discriminate.
Qed.

Lemma get_Ret (o : value) (k : string) :
  nullish o = false -> get o k = Ret (get_opt o k).
Proof. unfold get. intros ->. reflexivity. Qed.

Lemma mul_100 (v : value) :
  mul v (Num 100) = if converts v then Some (number_of v * 100)%float else None.
Proof. unfold mul, converts, number_of. destruct (ToNumber v); reflexivity. Qed.

Lemma gt_number (v : value) (n : float) :
  gt v n = if converts v then Some (n <? number_of v)%float else None.
Proof. unfold gt, converts, number_of. destruct (ToNumber v); reflexivity. Qed.

Lemma local_opportunities_loop es acc : local (opportunities_loop es acc).
Proof.
  revert acc. induction es as [| [key audit] rest IH]; intros acc; simpl.
  - apply local_Ret.
  - apply local_bind; [apply local_get | intros details].
    destruct (truthy details); [| apply IH].
    apply local_bind; [apply local_get | intros savings].
    apply local_bind; [apply local_converted | intros above].
    destruct above; [| apply IH].
    local_steps. apply IH.
Qed.

Lemma opportunities_loop_Ok w es acc l t :
  run w (opportunities_loop es acc) = (Ok l, t) ->
  l = acc ++ map opportunity (filter qualifies (map snd es))
  /\ forallb (fun e => audit_ok (snd e)) es = true.
Proof.
  revert acc. induction es as [| [key audit] rest IH]; intros acc; simpl.
  - intros H. inversion H. rewrite app_nil_r. auto.
  - unfold get at 1. destruct (nullish audit) eqn:Ea; simpl; [discriminate |].
    unfold qualifies at 1, audit_ok at 1. rewrite Ea.
    destruct (truthy (get_opt audit "details")) eqn:Ed; simpl.
    + rewrite (get_Ret _ _ (truthy_not_nullish _ Ed)). simpl.
      rewrite gt_number.
      destruct (converts (get_opt (get_opt audit "details") "overallSavingsMs"));
        simpl; [| discriminate].
      destruct (100 <? number_of (get_opt (get_opt audit "details") "overallSavingsMs"))%float.
      * rewrite !(get_Ret audit) by assumption. simpl.
        intros H. apply IH in H. destruct H as [-> ->].
        rewrite <- app_assoc. auto.
      * apply IH.
    + apply IH.
Qed.

Lemma opportunities_loop_total w es acc :
  forallb (fun e => audit_ok (snd e)) es = true ->
  run w (opportunities_loop es acc)
  = (Ok (acc ++ map opportunity (filter qualifies (map snd es))), []).
Proof.
  revert acc. induction es as [| [key audit] rest IH]; intros acc; simpl.
  - rewrite app_nil_r. reflexivity.
  - intros H. apply andb_prop in H. destruct H as [Ha Hrest].
    unfold audit_ok in Ha. apply andb_prop in Ha. destruct Ha as [Ha Hc].
    apply negb_true_iff in Ha.
    rewrite (get_Ret audit) by assumption. simpl. unfold qualifies at 1.
    destruct (truthy (get_opt audit "details")) eqn:Ed; simpl.
    + rewrite (get_Ret _ _ (truthy_not_nullish _ Ed)). simpl.
      simpl in Hc. rewrite gt_number, Hc. simpl.
      destruct (100 <? number_of (get_opt (get_opt audit "details") "overallSavingsMs"))%float.
      * rewrite !(get_Ret audit) by assumption. simpl.
        rewrite IH by assumption. rewrite <- app_assoc. reflexivity.
      * apply IH; assumption.
    + apply IH; assumption.
Qed.

Lemma local_metric_sample audit : local (metric_sample audit).
Proof. unfold metric_sample. local_steps. Qed.

Lemma metric_sample_Ret audit :
  nullish audit = false -> metric_sample audit = Ret (metric_of audit).
Proof.
  intros H. unfold metric_sample. rewrite !(get_Ret audit) by assumption.
  reflexivity.
Qed.

Lemma metric_sample_nullish audit :
  nullish audit = true ->
  metric_sample audit = Raise (TypeError "Cannot read properties of undefined").
Proof. intros H. unfold metric_sample, get. rewrite H. reflexivity. Qed.

Lemma local_extract_report url strategy data :
  local (extract_report url strategy data).
Proof.
  unfold extract_report.
  repeat first
    [ apply local_Ret
    | apply local_get
    | apply local_converted
    | apply local_entries
    | apply local_date_now
    | apply local_opportunities_loop
    | apply local_metric_sample
    | apply local_bind; [| intros ?] ].
Qed.

Ltac read_or_throw H :=
  repeat match type of H with
  | context [get ?o ?k] =>
      first
        [ rewrite (get_Ret o k) in H by assumption; simpl in H
        | let E := fresh "E" in
          destruct (nullish o) eqn:E;
          [ unfold get in H; rewrite ?E in H; simpl in H; discriminate H
          | rewrite (get_Ret o k) in H by assumption; simpl in H ] ]
  end.

Lemma extract_report_Ok w url strategy data report t :
  run w (extract_report url strategy data) = (Ok report, t) ->
  report = report_of url strategy data (clock w) /\ t = [] /\ payload_ok data = true.
Proof.
  intros H. unfold extract_report in H.
  read_or_throw H.
  rewrite mul_100 in H.
  destruct (converts (get_opt (get_opt (get_opt (get_opt data "lighthouseResult")
                                          "categories") "performance") "score"))
    eqn:Ecv; simpl in H; [| discriminate H].
  read_or_throw H.
  unfold entries in H.
  match goal with
  | E : nullish (get_opt (get_opt data "lighthouseResult") "audits") = false |- _ =>
      rewrite E in H
  end.
  simpl in H.
  apply run_bind_Ok in H. destruct H as (opps & t1 & t2 & Hloop & H & ->).
  destruct (local_opportunities_loop (entries_of (get_opt (get_opt data "lighthouseResult") "audits")) [] w)
    as [Ht1 _].
  rewrite Hloop in Ht1. simpl in Ht1. subst t1.
  apply opportunities_loop_Ok in Hloop. destruct Hloop as [-> Hall].
  simpl in H.
  repeat match type of H with
  | context [metric_sample ?a] =>
      destruct (nullish a) eqn:?;
      [ rewrite (metric_sample_nullish a) in H by assumption; simpl in H;
        discriminate H
      | rewrite (metric_sample_Ret a) in H by assumption; simpl in H ]
  end.
  read_or_throw H.
  inversion H; subst. split; [reflexivity |]. split; [reflexivity |].
  unfold payload_ok, audits_of, category_score. simpl. rewrite Ecv.
  repeat match goal with
  | E : nullish _ = false |- _ => rewrite E; clear E
  end.
  simpl. exact Hall.
Qed.

Lemma extract_report_total w url strategy data :
  payload_ok data = true ->
  run w (extract_report url strategy data)
  = (Ok (report_of url strategy data (clock w)), []).
Proof.
  unfold payload_ok, audits_of, category_score. simpl. intros H.
  rewrite !andb_true_iff, !negb_true_iff in H.
  destruct H as [[[H Hcv] (H1 & H2 & H3 & H4 & H5 & _)] Hall].
  assert (Hc := nullish_get_opt _ _ H).
  assert (Hl := nullish_get_opt _ _ Hc).
  assert (Hd := nullish_get_opt _ _ Hl).
  assert (Ha := nullish_get_opt _ _ H1).
  unfold extract_report.
  repeat match goal with
  | |- context [get ?o ?k] => rewrite (get_Ret o k) by assumption; simpl
  end.
  rewrite mul_100, Hcv. simpl.
  repeat match goal with
  | |- context [get ?o ?k] => rewrite (get_Ret o k) by assumption; simpl
  end.
  unfold entries. rewrite Ha. simpl.
  rewrite run_bind, opportunities_loop_total by assumption. simpl.
  rewrite !metric_sample_Ret by assumption. simpl.
  repeat match goal with
  | |- context [get ?o ?k] => rewrite (get_Ret o k) by assumption; simpl
  end.
  reflexivity.
Qed.

End Extractor.

(** ** The two handlers *)

Section HandlerFacts.
Context {rt : Runtime}.
Variable PAGESPEED_API_KEY : option string.

#[local] Arguments Math_round : simpl never.
#[local] Arguments ToNumber : simpl never.

Local Abbreviation analyze := (analyze PAGESPEED_API_KEY).
Local Abbreviation compare := (compare PAGESPEED_API_KEY).
Local Abbreviation build_params := (build_params PAGESPEED_API_KEY).
Local Abbreviation compare_config := (compare_config PAGESPEED_API_KEY).
Local Abbreviation params_of := (params_of PAGESPEED_API_KEY).

Lemma analyze_catch_TypeError (e : js_error) :
  is_TypeError e -> analyze_catch e = Ret Internal_Server_Error.
Proof. intros [Hr Hc]. unfold analyze_catch. rewrite Hr, Hc. reflexivity. Qed.

Lemma local_analyze_catch (e : js_error) : local (analyze_catch e).
Proof.
  unfold analyze_catch. destruct (response e) as [[st errorData] |];
    [| apply local_Ret].
  destruct (st =? 400); [local_steps |].
  destruct (st =? 403); [apply local_Ret |].
  destruct (st =? 429); [apply local_Ret |].
  local_steps.
Qed.

Lemma extract_report_throws w url strategy data :
  payload_ok data = false ->
  exists e, run w (extract_report url strategy data) = (Err e, [])
            /\ is_TypeError e.
Proof.
  intros Hbad.
  destruct (local_extract_report url strategy data w) as [Ht He].
  destruct (run w (extract_report url strategy data)) as [[report | e] t] eqn:E;
    simpl in Ht; subst t.
  - apply extract_report_Ok in E. destruct E as (_ & _ & Hok). congruence.
  - exists e. split; [reflexivity | apply He; reflexivity].
Qed.

Lemma build_params_Arr url strategy categories :
  build_params url strategy (Arr categories)
  = Ret (params_of url strategy categories).
Proof.
  unfold Server.build_params, params_of, forEach.
  destruct (truthy (key_value PAGESPEED_API_KEY)); reflexivity.
Qed.

Lemma local_build_params url strategy categories :
  local (build_params url strategy categories).
Proof.
  unfold Server.build_params, forEach.
  destruct categories; first [apply local_Ret | apply local_TypeError].
Qed.

(** What [analyze] does once validation has passed and the query is
    built: one upstream call, then the report or the classified error. *)
Lemma analyze_run w body params :
  let url := assoc "url" body in
  let strategy := with_default (assoc "strategy" body) (Str "mobile") in
  let categories :=
    with_default (assoc "categories" body) (Arr [Str "performance"]) in
  validate_url url = None ->
  validate_strategy strategy = None ->
  build_params url strategy categories = Ret params ->
  run w (analyze body) =
  (match upstream w (pagespeed_config params) with
   | Rejected e => fst (run w (analyze_catch e))
   | Fulfilled data =>
       Ok (if payload_ok data
           then success (report_of url strategy data (clock w))
           else Internal_Server_Error)
   end,
   [pagespeed_config params]).
Proof.
  intros url strategy categories Hu Hs Hp.
  unfold Server.analyze, analyze_try. fold url strategy categories.
  rewrite Hu, Hs, Hp. simpl.
  destruct (upstream w (pagespeed_config params)) as [data | e]; simpl.
  - rewrite run_try_catch, run_bind.
    destruct (payload_ok data) eqn:Hok.
    + rewrite extract_report_total by assumption. reflexivity.
    + destruct (extract_report_throws w url strategy data Hok) as (e & -> & He).
      simpl. rewrite (analyze_catch_TypeError e He). reflexivity.
  - destruct (local_analyze_catch e w) as [Ht _].
    destruct (run w (analyze_catch e)) as [r t]. simpl in Ht. subst t.
    reflexivity.
Qed.

(** A validation failure is answered at once. *)
Lemma analyze_rejected w body r :
  let url := assoc "url" body in
  let strategy := with_default (assoc "strategy" body) (Str "mobile") in
  validate_url url = Some r
  \/ (validate_url url = None /\ validate_strategy strategy = Some r) ->
  run w (analyze body) = (Ok r, []).
Proof.
  intros url strategy H.
  unfold Server.analyze, analyze_try. fold url strategy.
  destruct H as [-> | [-> ->]]; reflexivity.
Qed.

Lemma local_strategy_result s : local (strategy_result s).
Proof. destruct s; unfold strategy_result; local_steps. Qed.

Lemma strategy_result_scored s :
  scored s = true -> strategy_result s = Ret (StrategyOutcome s).
Proof.
  destruct s as [data | e]; simpl; [| reflexivity].
  rewrite andb_true_iff, negb_true_iff. unfold category_score. intros [Hp Hcv].
  assert (Hc := nullish_get_opt _ _ Hp).
  assert (Hl := nullish_get_opt _ _ Hc).
  assert (Hd := nullish_get_opt _ _ Hl).
  repeat match goal with
  | |- context [get ?o ?k] => rewrite (get_Ret o k) by assumption; simpl
  end.
  rewrite mul_100, Hcv. reflexivity.
Qed.

Lemma strategy_result_unscored s :
  scored s = false ->
  exists msg, strategy_result s = Raise (TypeError msg).
Proof.
  destruct s as [data | e]; simpl; [| discriminate].
  unfold category_score. intros Hp. unfold get.
  destruct (nullish data); simpl; [eexists; reflexivity |].
  destruct (nullish (get_opt data "lighthouseResult")); simpl;
    [eexists; reflexivity |].
  destruct (nullish (get_opt (get_opt data "lighthouseResult") "categories"));
    simpl; [eexists; reflexivity |].
  destruct (nullish (get_opt (get_opt (get_opt data "lighthouseResult")
                                "categories") "performance"));
    simpl in *; [eexists; reflexivity |].
  rewrite mul_100, Hp. simpl. eexists; reflexivity.
Qed.

(** What [compare] does for a url that passes its check. *)
Lemma compare_run w body :
  let url := assoc "url" body in
  let mobileResponse := upstream w (compare_config url "mobile") in
  let desktopResponse := upstream w (compare_config url "desktop") in
  truthy url = true ->
  isValidUrl url = true ->
  run w (compare body) =
  (Ok (if scored mobileResponse && scored desktopResponse
       then ComparisonResult url (clock w)
              (StrategyOutcome mobileResponse) (StrategyOutcome desktopResponse)
       else Compare_Internal_Server_Error),
   [compare_config url "mobile"; compare_config url "desktop"]).
Proof.
  intros url m d Ht Hv.
  unfold Server.compare, compare_try. fold url.
  rewrite Ht, Hv. simpl. fold m d.
  destruct (scored m) eqn:Hm.
  - rewrite (strategy_result_scored m Hm). simpl.
    destruct (scored d) eqn:Hd.
    + rewrite (strategy_result_scored d Hd). reflexivity.
    + destruct (strategy_result_unscored d Hd) as [msg ->]. reflexivity.
  - destruct (strategy_result_unscored m Hm) as [msg ->]. reflexivity.
Qed.

(** *** Validation *)

(** C6.  An Analyze request that fails validation is answered with the 400
    response of the first check it fails, and no upstream call is issued:
    a url that is absent or empty (falsy) gets [URL is required] (the spec's
    MissingInput), a url the URL parser rejects gets [Invalid URL]
    (InvalidUrl), and, when the url is fine, a strategy that is supplied and
    is neither "mobile" nor "desktop" gets [Invalid strategy]
    (InvalidStrategy). *)
Theorem validation_errors_stay_local (w : world) (body : list (string * value)) :
  let url := assoc "url" body in
  let strategy := with_default (assoc "strategy" body) (Str "mobile") in
  truthy url = false \/ isValidUrl url = false
    \/ includes ["mobile"; "desktop"] strategy = false ->
  exists r,
    run w (analyze body) = (Ok r, [])
    /\ status r = 400
    /\ r = (if negb (truthy url) then URL_is_required
            else if negb (isValidUrl url) then Invalid_URL
            else Invalid_strategy).
Proof.
  intros url strategy H.
  destruct (truthy url) eqn:Ht; simpl.
  - destruct (isValidUrl url) eqn:Hv; simpl.
    + destruct H as [H | [H | H]]; try discriminate.
      exists Invalid_strategy. split; [| split; reflexivity].
      apply analyze_rejected. right. fold url strategy.
      unfold validate_url, validate_strategy. rewrite Ht, Hv, H. auto.
    + exists Invalid_URL. split; [| split; reflexivity].
      apply analyze_rejected. left. fold url.
      unfold validate_url. rewrite Ht, Hv. reflexivity.
  - exists URL_is_required. split; [| split; reflexivity].
    apply analyze_rejected. left. fold url.
    unfold validate_url. rewrite Ht. reflexivity.
Qed.

(** *** Classification of upstream failures *)

(** C7.  When the upstream answers an Analyze call with HTTP 403, the
    response is the fixed [API Key Error] response, whatever the upstream
    body and error message are; so two upstream 403 answers yield the same
    response. *)
Theorem credential_error_is_generic
  (w1 w2 : world) (body : list (string * value)) (params : list (string * value))
  (e1 e2 : js_error) (d1 d2 : value) :
  let url := assoc "url" body in
  let strategy := with_default (assoc "strategy" body) (Str "mobile") in
  let categories :=
    with_default (assoc "categories" body) (Arr [Str "performance"]) in
  validate_url url = None ->
  validate_strategy strategy = None ->
  build_params url strategy categories = Ret params ->
  upstream w1 (pagespeed_config params) = Rejected e1 ->
  response e1 = Some (403, d1) ->
  upstream w2 (pagespeed_config params) = Rejected e2 ->
  response e2 = Some (403, d2) ->
  fst (run w1 (analyze body)) = Ok API_Key_Error
  /\ fst (run w2 (analyze body)) = fst (run w1 (analyze body)).
Proof.
  intros url strategy categories Hu Hs Hp H1 R1 H2 R2.
  rewrite (analyze_run w1 body params Hu Hs Hp), (analyze_run w2 body params Hu Hs Hp).
  rewrite H1, H2. unfold analyze_catch. rewrite R1, R2. simpl. auto.
Qed.

(** C5.  When the payload of a 2xx upstream answer has no entry under one
    of the five metric keys in [lighthouseResult.audits], extraction throws
    and Analyze answers with the catch-all 500 [Internal Server Error], the
    response a malformed upstream payload is reported with. *)
Theorem missing_metric_is_internal_error
  (w : world) (body : list (string * value)) (params : list (string * value))
  (data : value) (key : string) :
  let url := assoc "url" body in
  let strategy := with_default (assoc "strategy" body) (Str "mobile") in
  let categories :=
    with_default (assoc "categories" body) (Arr [Str "performance"]) in
  validate_url url = None ->
  validate_strategy strategy = None ->
  build_params url strategy categories = Ret params ->
  upstream w (pagespeed_config params) = Fulfilled data ->
  In key (map fst metric_keys) ->
  get_opt (audits_of data) key = Undefined ->
  (exists e, run w (extract_report url strategy data) = (Err e, [])
             /\ is_TypeError e)
  /\ run w (analyze body) = (Ok Internal_Server_Error, [pagespeed_config params])
  /\ status Internal_Server_Error = 500.
Proof.
  intros url strategy categories Hu Hs Hp Hup Hin Hmiss.
  assert (Hbad : payload_ok data = false).
  { unfold payload_ok. simpl in Hin |- *.
    destruct Hin as [<- | [<- | [<- | [<- | [<- | []]]]]];
      rewrite Hmiss; simpl; rewrite ?andb_false_r; reflexivity. }
  split; [apply extract_report_throws; assumption |].
  split; [| reflexivity].
  rewrite (analyze_run w body params Hu Hs Hp), Hup, Hbad. reflexivity.
Qed.

(** *** The upstream query *)

Lemma last_cons {A : Type} (l : list A) (a d : A) : last (a :: l) d = last l a.
Proof.
  revert a d. induction l as [| b l IH]; intros a d; [reflexivity |].
  change (last (a :: b :: l) d) with (last (b :: l) d).
  rewrite (IH b d), (IH b a). reflexivity.
Qed.

Lemma set_category_new base v :
  filter is_category base = [] ->
  set_prop "category" v base = base ++ [("category", v)].
Proof.
  induction base as [| [k' v'] rest IH]; [reflexivity |].
  cbn [set_prop filter app].
  change (is_category (k', v')) with (String.eqb k' "category").
  rewrite (String.eqb_sym k').
  destruct (String.eqb "category" k'); [discriminate |].
  intros H. rewrite IH by assumption. reflexivity.
Qed.

Lemma set_category_again base v v' :
  filter is_category base = [] ->
  set_prop "category" v (base ++ [("category", v')]) = base ++ [("category", v)].
Proof.
  induction base as [| [k' v''] rest IH]; [reflexivity |].
  cbn [set_prop filter app].
  change (is_category (k', v'')) with (String.eqb k' "category").
  rewrite (String.eqb_sym k').
  destruct (String.eqb "category" k'); [discriminate |].
  intros H. rewrite IH by assumption. reflexivity.
Qed.

Lemma forEach_category_keeps_last categories base v :
  filter is_category base = [] ->
  fold_left (fun params category => set_prop "category" category params)
    categories (base ++ [("category", v)])
  = base ++ [("category", last categories v)].
Proof.
  intros Hb. revert v.
  induction categories as [| c rest IH]; intros v; cbn [fold_left].
  - reflexivity.
  - rewrite set_category_again by assumption. rewrite IH, last_cons.
    reflexivity.
Qed.

Lemma params_of_category url strategy categories :
  categories <> [] ->
  filter is_category (params_of url strategy categories)
  = [("category", last categories Undefined)].
Proof.
  destruct categories as [| c rest]; [congruence | intros _].
  unfold params_of. rewrite last_cons. simpl fold_left.
  destruct (truthy (key_value PAGESPEED_API_KEY)).
  - rewrite set_category_new by reflexivity.
    rewrite forEach_category_keeps_last by reflexivity. reflexivity.
  - rewrite set_category_new by reflexivity.
    rewrite forEach_category_keeps_last by reflexivity. reflexivity.
Qed.

(** C1 (what the code does).  For a request with two or more categories,
    the upstream query carries exactly one [category] parameter, and it
    holds the last entry: every assignment of the loop writes the same
    key, so the earlier categories are dropped. *)
Theorem only_the_last_category_is_sent
  (w : world) (body : list (string * value)) (categories : list value) :
  let url := assoc "url" body in
  let strategy := with_default (assoc "strategy" body) (Str "mobile") in
  validate_url url = None ->
  validate_strategy strategy = None ->
  assoc "categories" body = Arr categories ->
  (2 <= List.length categories)%nat ->
  exists params,
    snd (run w (analyze body)) = [pagespeed_config params]
    /\ filter is_category params = [("category", last categories Undefined)].
Proof.
  intros url strategy Hu Hs Hc Hlen.
  exists (params_of url strategy categories). split.
  - rewrite (analyze_run w body (params_of url strategy categories)); auto.
    rewrite Hc. apply build_params_Arr.
  - apply params_of_category. destruct categories; [simpl in Hlen; lia | congruence].
Qed.

(** *** The report *)

(** C3.  The opportunities of a report are the audits, in the order
    [Object.entries] enumerates the audits collection, that have
    [details.overallSavingsMs > 100], each reduced to its title,
    description, savings and display value; the first five of them are
    kept, the cut being made after the filter. *)
Theorem opportunities_filtered_in_order_then_cut
  (w : world) (url strategy data report : value) (t : list request_config) :
  run w (extract_report url strategy data) = (Ok report, t) ->
  get_opt report "opportunities"
  = Arr (firstn 5 (map opportunity
                     (filter qualifies (map snd (entries_of (audits_of data)))))).
Proof.
  intros H. apply extract_report_Ok in H. destruct H as (-> & _ & _).
  reflexivity.
Qed.

(** C8.  In a report, the score of each of the five metrics is the score
    of the upstream audit it is read from, as it is: a null upstream score
    is reported as null, not as 0. *)
Theorem metric_scores_pass_through
  (w : world) (url strategy data report : value) (t : list request_config)
  (key name : string) :
  run w (extract_report url strategy data) = (Ok report, t) ->
  In (key, name) metric_keys ->
  let reported := get_opt (get_opt (get_opt report "metrics") name) "score" in
  let upstream_score := get_opt (get_opt (audits_of data) key) "score" in
  reported = upstream_score
  /\ (upstream_score = Null -> reported = Null /\ reported <> Num 0).
Proof.
  intros H Hin reported upstream_score.
  apply extract_report_Ok in H. destruct H as (-> & _ & _).
  assert (Heq : reported = upstream_score).
  { subst reported upstream_score. simpl in Hin.
    destruct Hin as [Hk | [Hk | [Hk | [Hk | [Hk | []]]]]];
      inversion Hk; subst; reflexivity. }
  split; [exact Heq |].
  intros Hnull. rewrite Heq, Hnull. split; [reflexivity | discriminate].
Qed.

(** *** Compare *)

(** C2 (amended).  For a Compare request with a valid url, the handler
    first awaits the joint settlement of the mobile and the desktop call;
    when each call either failed or succeeded with a payload that has the
    performance category and a score that converts to a number
    ([scored]), the response is a request-level success that reports each
    strategy from its own settlement: [{score: round(s*100), status:
    success}] for a success with category score [s], [{score: null,
    status: failed, error: message}] for a failure. *)
Theorem compare_reports_each_settlement
  (w : world) (body : list (string * value)) :
  let url := assoc "url" body in
  let mobileResponse := upstream w (compare_config url "mobile") in
  let desktopResponse := upstream w (compare_config url "desktop") in
  truthy url = true ->
  isValidUrl url = true ->
  scored mobileResponse = true ->
  scored desktopResponse = true ->
  (exists k,
     compare body
     = Await_allSettled (compare_config url "mobile") (compare_config url "desktop") k)
  /\ run w (compare body)
     = (Ok (ComparisonResult url (clock w)
              (StrategyOutcome mobileResponse) (StrategyOutcome desktopResponse)),
        [compare_config url "mobile"; compare_config url "desktop"]).
Proof.
  intros url m d Ht Hv Hm Hd. split.
  - unfold Server.compare, compare_try. fold url. rewrite Ht, Hv. simpl.
    eexists. reflexivity.
  - rewrite (compare_run w body Ht Hv). fold url m d. rewrite Hm, Hd.
    reflexivity.
Qed.


(** *** Scheme-less urls *)

(** C9 (amended).  With a URL parser that fails on input without a scheme,
    Analyze rejects every non-empty scheme-less url string as [Invalid URL]
    without prefixing a scheme and without an upstream call, and every
    string the parser accepts passes the checks on the url. *)
Theorem scheme_less_url_is_invalid
  (w : world) (body : list (string * value)) (s : string) :
  (forall s', URL.has_scheme s' = false -> URL_parses (Str s') = false) ->
  assoc "url" body = Str s ->
  (URL.has_scheme s = false -> s <> "" ->
     validate_url (Str s) = Some Invalid_URL
     /\ run w (analyze body) = (Ok Invalid_URL, []))
  /\ (URL_parses (Str s) = true -> validate_url (Str s) = None).
Proof.
  intros Hparser Hurl. split.
  - intros Hs Hne.
    assert (Hv : validate_url (Str s) = Some Invalid_URL).
    { unfold validate_url, isValidUrl. simpl.
      destruct (String.eqb_spec s ""); [contradiction |]. simpl.
      rewrite (Hparser s Hs). reflexivity. }
    split; [exact Hv |].
    apply analyze_rejected. left. rewrite Hurl. exact Hv.
  - intros Hacc. unfold validate_url, isValidUrl. simpl.
    destruct (String.eqb_spec s "") as [-> | Hne].
    + rewrite (Hparser "" eq_refl) in Hacc. discriminate.
    + simpl. rewrite Hacc. reflexivity.
Qed.

End HandlerFacts.

(** ** Rounding the score *)

(** Facts on binary64 multiplication and on [Math.round], from the
    specification of the primitive floats: the product of a score in
    [0, 1] and 100 is a zero or a positive float below 2^9 with a
    fractional part, which [Math.round] rounds to the nearest integer, and
    the float of that integer is exact. *)
Section Rounding.

Lemma digits2_pos_size p : digits2_pos p = Pos.size p.
Proof. induction p; simpl; congruence. Qed.

Lemma Zdigits2_nonneg m : 0 <= Zdigits2 m.
Proof. destruct m; simpl; lia. Qed.

Lemma Zdigits2_bounds p :
  2 ^ (Zdigits2 (Zpos p) - 1) <= Zpos p < 2 ^ Zdigits2 (Zpos p).
Proof.
  change (Zdigits2 (Zpos p)) with (Zpos (digits2_pos p)).
  rewrite digits2_pos_size.
  pose proof (Pos.size_gt p) as Hgt. pose proof (Pos.size_le p) as Hle.
  split.
  - apply Pos2Z.pos_le_pos in Hle. rewrite Pos2Z.inj_pow in Hle.
    replace (Z.pos (Pos.size p)) with (Z.succ (Z.pos (Pos.size p) - 1)) in Hle by lia.
    rewrite Z.pow_succ_r in Hle by lia. lia.
  - apply Pos2Z.pos_lt_pos in Hgt. rewrite Pos2Z.inj_pow in Hgt. exact Hgt.
Qed.

Lemma Zdigits2_le m n : 0 <= m -> m < 2 ^ n -> 0 <= n -> Zdigits2 m <= n.
Proof.
  intros Hm Hlt Hn. destruct m as [| p | p]; [simpl; lia | | lia].
  destruct (Zdigits2_bounds p) as [Hlo _].
  destruct (Z.le_gt_cases (Zdigits2 (Z.pos p)) n) as [|Hgt]; [assumption |].
  assert (2 ^ n <= 2 ^ (Zdigits2 (Z.pos p) - 1)) by (apply Z.pow_le_mono_r; lia).
  lia.
Qed.

Lemma Zdigits2_succ m : 0 <= m -> Zdigits2 (m + 1) <= Zdigits2 m + 1.
Proof.
  intros Hm. pose proof (Zdigits2_nonneg m) as Hd.
  apply Zdigits2_le; [lia | | lia].
  destruct m as [| p | p]; [reflexivity | | lia].
  destruct (Zdigits2_bounds p) as [_ Hhi].
  rewrite Z.pow_add_r by lia. change (2 ^ 1) with 2. lia.
Qed.

Lemma Zdigits2_mul p q :
  Zdigits2 (Zpos (p * q)) <= Zdigits2 (Zpos p) + Zdigits2 (Zpos q).
Proof.
  pose proof (Zdigits2_nonneg (Zpos p)). pose proof (Zdigits2_nonneg (Zpos q)).
  apply Zdigits2_le; [lia | | lia].
  destruct (Zdigits2_bounds p) as [_ Hp]. destruct (Zdigits2_bounds q) as [_ Hq].
  rewrite Z.pow_add_r by assumption. rewrite Pos2Z.inj_mul. nia.
Qed.

Lemma shr_1_facts mrs :
  0 <= shr_m mrs ->
  0 <= shr_m (shr_1 mrs)
  /\ Zdigits2 (shr_m (shr_1 mrs)) = Z.max 0 (Zdigits2 (shr_m mrs) - 1).
Proof.
  destruct mrs as [m r s]. cbn [shr_m]. intros Hm.
  destruct m as [| p | p]; [| | lia].
  - simpl. lia.
  - destruct p; cbn [shr_1 shr_m Zdigits2 digits2_pos]; rewrite ?Pos2Z.inj_succ; lia.
Qed.

Lemma iter_shr_1_facts n : forall mrs,
  0 <= shr_m mrs ->
  0 <= shr_m (SpecFloat.iter_pos shr_1 n mrs)
  /\ Zdigits2 (shr_m (SpecFloat.iter_pos shr_1 n mrs))
     = Z.max 0 (Zdigits2 (shr_m mrs) - Zpos n).
Proof.
  induction n as [n IH | n IH |]; intros mrs Hm; cbn [SpecFloat.iter_pos].
  - destruct (shr_1_facts mrs Hm) as [H1 D1].
    destruct (IH _ H1) as [H2 D2]. destruct (IH _ H2) as [H3 D3].
    split; [assumption |]. rewrite D3, D2, D1.
    pose proof (Zdigits2_nonneg (shr_m mrs)). lia.
  - destruct (IH _ Hm) as [H2 D2]. destruct (IH _ H2) as [H3 D3].
    split; [assumption |]. rewrite D3, D2.
    pose proof (Zdigits2_nonneg (shr_m mrs)). lia.
  - apply shr_1_facts. assumption.
Qed.

Lemma shr_fexp_facts m e :
  0 <= m ->
  let r := shr_fexp prec emax m e loc_Exact in
  0 <= shr_m (fst r)
  /\ snd r = Z.max e (fexp prec emax (Zdigits2 m + e))
  /\ Zdigits2 (shr_m (fst r)) + snd r <= Z.max (snd r) (Zdigits2 m + e).
Proof.
  intros Hm. unfold shr_fexp, shr. cbn [shr_record_of_loc].
  pose proof (Zdigits2_nonneg m) as Hd.
  destruct (fexp prec emax (Zdigits2 m + e) - e) as [| n | n] eqn:En;
    cbn [fst snd shr_m].
  - lia.
  - destruct (iter_shr_1_facts n {| shr_m := m; shr_r := false; shr_s := false |} Hm)
      as [H1 D1].
    cbn [shr_m] in D1. rewrite D1. lia.
  - lia.
Qed.

Lemma round_nearest_even_facts m l :
  0 <= m ->
  0 <= round_nearest_even m l
  /\ Zdigits2 (round_nearest_even m l) <= Zdigits2 m + 1.
Proof.
  intros Hm. pose proof (Zdigits2_succ m Hm).
  unfold round_nearest_even.
  destruct l as [| []]; try destruct (Z.even m); split; lia.
Qed.

Lemma binary_round_aux_small sx mx ex k :
  0 < mx -> ex < 0 -> Zdigits2 mx + ex <= k -> 0 <= k <= 51 ->
  binary_round_aux prec emax sx mx ex loc_Exact = S754_zero sx
  \/ exists m e,
       binary_round_aux prec emax sx mx ex loc_Exact = S754_finite sx m e
       /\ e < 0 /\ Zdigits2 (Zpos m) + e <= k + 1.
Proof.
  intros Hm He Hd Hk. unfold binary_round_aux.
  pose proof (shr_fexp_facts mx ex ltac:(lia)) as F1.
  destruct (shr_fexp prec emax mx ex loc_Exact) as [mrs' e'].
  cbn [fst snd] in F1. destruct F1 as (P1 & E1 & D1).
  pose proof (round_nearest_even_facts (shr_m mrs') (loc_of_shr_record mrs') P1) as F2.
  destruct F2 as [P2 D2].
  pose proof (shr_fexp_facts _ e' P2) as F3.
  destruct (shr_fexp prec emax (round_nearest_even (shr_m mrs') (loc_of_shr_record mrs'))
              e' loc_Exact) as [mrs'' e''].
  cbn [fst snd] in F3. destruct F3 as (P3 & E3 & D3).
  assert (Hneg : e'' < 0).
  { unfold fexp, SpecFloat.emin, prec, emax in *. lia. }
  assert (Hdig : Zdigits2 (shr_m mrs'') + e'' <= k + 1).
  { unfold fexp, SpecFloat.emin, prec, emax in *. lia. }
  destruct (shr_m mrs'') as [| m | m]; [left; reflexivity | right | lia].
  exists m, e''. split; [| auto].
  replace (e'' <=? emax - prec) with true; [reflexivity |].
  symmetry. apply Z.leb_le. unfold emax, prec. lia.
Qed.

Lemma score_times_100 (s : float) :
  (0 <=? s)%float = true -> (s <=? 1)%float = true ->
  (exists b, Prim2SF (s * 100) = S754_zero b)
  \/ (exists m e, Prim2SF (s * 100) = S754_finite false m e
                  /\ e < 0 /\ Zdigits2 (Zpos m) + e <= 9).
Proof.
  rewrite !leb_spec, mul_spec.
  change (Prim2SF 0) with (S754_zero false).
  change (Prim2SF 1) with (S754_finite false 4503599627370496 (-52)).
  change (Prim2SF 100) with (S754_finite false 7036874417766400 (-46)).
  pose proof (Prim2SF_valid s) as Hv.
  destruct (Prim2SF s) as [b | b | | sg m e]; intros H0 H1.
  - left. exists (xorb b false). reflexivity.
  - destruct b; discriminate.
  - discriminate.
  - destruct sg; [discriminate |].
    assert (He : e <= -52).
    { unfold SFleb, SFcompare in H1.
      destruct (Z.compare_spec e (-52)); [lia | lia | discriminate]. }
    assert (Hd : Zdigits2 (Zpos m) <= 53).
    { cbn [valid_binary] in Hv. unfold bounded, canonical_mantissa in Hv.
      apply andb_prop in Hv. destruct Hv as [Hc _]. apply Z.eqb_eq in Hc.
      cbn [Zdigits2]. unfold fexp, SpecFloat.emin, prec, emax in Hc. lia. }
    unfold SF64mul, SFmul. cbn [xorb].
    destruct (binary_round_aux_small false (Zpos (m * 7036874417766400)) (e + -46) 8)
      as [Hz | (m' & e' & Hf & He' & Hd')].
    + lia.
    + lia.
    + pose proof (Zdigits2_mul m 7036874417766400) as Hmul.
      change (Zdigits2 (Zpos 7036874417766400)) with 53 in Hmul. lia.
    + lia.
    + left. exists false. exact Hz.
    + right. exists m', e'. auto.
Qed.

Lemma round_half_up_bounds (q : Q) :
  (inject_Z (round_half_up q) - (1 # 2) <= q
   /\ q < inject_Z (round_half_up q) + (1 # 2))%Q.
Proof.
  unfold round_half_up.
  pose proof (Qfloor_le (q + (1 # 2))) as Hlo.
  pose proof (Qlt_floor (q + (1 # 2))) as Hhi.
  rewrite inject_Z_plus in Hhi. change (inject_Z 1) with 1%Q in Hhi.
  split; lra.
Qed.

Lemma round_half_up_nearest (q : Q) :
  (0 <= q)%Q -> nearest_ties_away q (round_half_up q).
Proof.
  intros Hq. destruct (round_half_up_bounds q) as [Hlo Hhi].
  unfold nearest_ties_away.
  set (z := inject_Z (round_half_up q)) in *. clearbody z.
  split.
  - apply Qabs_Qle_condition. split; lra.
  - intros Htie.
    assert (Hd : (q - z == - (1 # 2))%Q).
    { destruct (Qlt_le_dec (q - z) 0) as [Hn | Hp].
      - rewrite Qabs_neg in Htie by (apply Qlt_le_weak; exact Hn). lra.
      - rewrite Qabs_pos in Htie by assumption. lra. }
    rewrite (Qabs_pos q) by assumption.
    rewrite (Qabs_pos z) by lra. lra.
Qed.

Lemma SF2Q_nonneg m e : (0 <= SF2Q (S754_finite false m e))%Q.
Proof.
  unfold SF2Q. cbn [cond_Zopp]. apply Qmult_le_0_compat.
  - change 0%Q with (inject_Z 0). rewrite <- Zle_Qle. lia.
  - apply Qpower_0_le. lra.
Qed.

Lemma SF2Q_lt_pow m e k :
  e < 0 -> Zdigits2 (Zpos m) + e <= k -> 0 <= k ->
  (SF2Q (S754_finite false m e) < inject_Z (2 ^ k))%Q.
Proof.
  intros He Hd Hk. unfold SF2Q. cbn [cond_Zopp].
  destruct (Zdigits2_bounds m) as [_ Hm].
  assert (Hm' : Zpos m < 2 ^ (k - e)).
  { eapply Z.lt_le_trans; [exact Hm |]. apply Z.pow_le_mono_r; lia. }
  assert (Hq : (inject_Z (Zpos m) < inject_Z (2 ^ k) * 2 ^ (- e))%Q).
  { rewrite <- (Zpower_Qpower 2 (- e)) by lia. rewrite <- inject_Z_mult.
    rewrite <- Zlt_Qlt. rewrite <- Z.pow_add_r by lia.
    replace (k + - e) with (k - e) by lia. exact Hm'. }
  assert (Hp : (0 < 2 ^ e)%Q) by (apply Qpower_0_lt; reflexivity).
  assert (Hinv : (2 ^ (- e) * 2 ^ e == 1)%Q).
  { rewrite <- Qpower_plus by discriminate.
    replace (- e + e) with 0 by lia. reflexivity. }
  apply (Qmult_lt_compat_r _ _ (2 ^ e)%Q) in Hq; [| exact Hp].
  rewrite <- Qmult_assoc, Hinv, Qmult_1_r in Hq. exact Hq.
Qed.

Lemma round_half_up_range (q : Q) (k : Z) :
  (0 <= q)%Q -> (q < inject_Z k)%Q -> 0 <= round_half_up q <= k.
Proof.
  intros Hq Hk. destruct (round_half_up_bounds q) as [Hlo Hhi].
  split.
  - assert (H : (inject_Z (-1) < inject_Z (round_half_up q))%Q).
    { change (inject_Z (-1)) with (-1)%Q. lra. }
    rewrite <- Zlt_Qlt in H. lia.
  - assert (H : (inject_Z (round_half_up q) < inject_Z (k + 1))%Q).
    { rewrite inject_Z_plus. change (inject_Z 1) with 1%Q. lra. }
    rewrite <- Zlt_Qlt in H. lia.
Qed.

Lemma int_float_exact_table :
  forallb (fun n => is_integer (int_float false (Z.of_nat n)) (Z.of_nat n)
                    && is_integer (int_float true (Z.of_nat n)) (Z.of_nat n))
    (seq 0 513) = true.
Proof. vm_compute. reflexivity. Qed.

Lemma int_float_exact negative z :
  0 <= z <= 512 -> is_integer (int_float negative z) z = true.
Proof.
  intros Hz.
  pose proof int_float_exact_table as T. rewrite forallb_forall in T.
  specialize (T (Z.to_nat z)). rewrite Z2Nat.id in T by lia.
  assert (Hin : In (Z.to_nat z) (seq 0 513)) by (apply in_seq; lia).
  apply T in Hin. apply andb_prop in Hin. destruct negative; tauto.
Qed.


Lemma Math_round_of_score (s : float) :
  (0 <=? s)%float = true -> (s <=? 1)%float = true ->
  let q := SF2Q (Prim2SF (s * 100)) in
  exists negative : bool,
    Math_round (s * 100) = int_float negative (round_half_up q)
    /\ is_integer (int_float negative (round_half_up q)) (round_half_up q) = true
    /\ nearest_ties_away q (round_half_up q).
Proof.
  intros H0 H1 q. subst q.
  destruct (score_times_100 s H0 H1) as [[b Hz] | (m & e & Hf & He & Hd)].
  - exists b. split; [| split].
    + unfold Math_round. rewrite Hz.
      rewrite <- (SF2Prim_Prim2SF (s * 100)), Hz. destruct b; reflexivity.
    + rewrite Hz. destruct b; reflexivity.
    + rewrite Hz. apply round_half_up_nearest. apply Qle_refl.
  - exists false. split; [| split].
    + unfold Math_round. rewrite Hf.
      replace (0 <=? e)%Z with false; [reflexivity |].
      symmetry. apply Z.leb_gt. assumption.
    + rewrite Hf. apply int_float_exact.
      change 512 with (2 ^ 9). apply round_half_up_range.
      * apply SF2Q_nonneg.
      * apply SF2Q_lt_pow; [assumption | assumption | lia].
    + rewrite Hf. apply round_half_up_nearest. apply SF2Q_nonneg.
Qed.

End Rounding.

Section ScoreClaim.
Context {rt : Runtime}.

(** C4.  In a report extracted from a payload whose performance category
    score is a float [s] in [0, 1], [performanceScore] is an integer: the
    one nearest to the binary64 product [s * 100], and the one away from
    zero when the product lies halfway between two integers. *)
Theorem performanceScore_is_rounded_score
  (w : world) (url strategy data report : value) (t : list request_config)
  (s : float) :
  run w (extract_report url strategy data) = (Ok report, t) ->
  category_score data = Num s ->
  (0 <=? s)%float = true ->
  (s <=? 1)%float = true ->
  let q := SF2Q (Prim2SF (s * 100)) in
  let z := round_half_up q in
  exists negative : bool,
    get_opt report "performanceScore" = Num (int_float negative z)
    /\ is_integer (int_float negative z) z = true
    /\ nearest_ties_away q z.
Proof.
  intros H Hs H0 H1 q z.
  apply extract_report_Ok in H. destruct H as (-> & _ & _).
  destruct (Math_round_of_score s H0 H1) as (negative & Hr & Hi & Hn).
  exists negative. split; [| split; assumption].
  unfold report_of. cbn [get_opt assoc String.eqb Ascii.eqb Bool.eqb].
  rewrite Hs. unfold number_of. cbn [ToNumber]. rewrite Hr. reflexivity.
Qed.

End ScoreClaim.

(** ** The theorems on concrete requests *)

Section Witnesses.
Import Samples.

Local Abbreviation analyze := (Server.analyze (rt := sample_runtime)).
Local Abbreviation compare := (Server.compare (rt := sample_runtime)).

(** C1: [performance] is requested first and does not reach the query. *)
Lemma only_the_last_category_is_sent_witness :
  exists params,
    snd (run (answering (Fulfilled (full_payload (Num 0.9))))
           (analyze None [("url", example_url);
                          ("categories", Arr [Str "performance"; Str "accessibility"])]))
    = [pagespeed_config params]
    /\ filter is_category params = [("category", Str "accessibility")].
Proof.
  apply (only_the_last_category_is_sent (rt := sample_runtime) None
           (answering (Fulfilled (full_payload (Num 0.9))))
           [("url", example_url);
            ("categories", Arr [Str "performance"; Str "accessibility"])]
           [Str "performance"; Str "accessibility"]).
  - reflexivity.
  - reflexivity.
  - reflexivity.
  - simpl. lia.
Defined.

(** C2: the mobile call succeeds with score 0.9 and the desktop call times
    out. *)
Lemma compare_reports_each_settlement_witness :
  run (settling (Fulfilled (full_payload (Num 0.9))) (Rejected timeout_error))
      (compare (Some "key") [("url", example_url)])
  = (Ok (ComparisonResult example_url timestamp
           (Obj [("score", Num 90); ("status", Str "success")])
           (Obj [("score", Null); ("status", Str "failed");
                 ("error", Str "timeout of 30000ms exceeded")])),
     [compare_config (Some "key") example_url "mobile";
      compare_config (Some "key") example_url "desktop"]).
Proof.
  apply (compare_reports_each_settlement (rt := sample_runtime) (Some "key")
           (settling (Fulfilled (full_payload (Num 0.9))) (Rejected timeout_error))
           [("url", example_url)]); reflexivity.
Defined.

(** C2, as first stated, fails when a call succeeds with a payload that
    lacks the performance category: the desktop call times out, the mobile
    call is answered 2xx with an empty object, and the request fails with
    500 instead of reporting the desktop failure. *)
Lemma compare_fails_on_malformed_sibling :
  run (settling (Fulfilled (Obj [])) (Rejected timeout_error))
      (compare (Some "key") [("url", example_url)])
  = (Ok Compare_Internal_Server_Error,
     [compare_config (Some "key") example_url "mobile";
      compare_config (Some "key") example_url "desktop"])
  /\ status Compare_Internal_Server_Error = 500
  /\ get_opt (json Compare_Internal_Server_Error) "data" = Undefined.
Proof. repeat split; reflexivity. Qed.

(** C3: seven audits with savings 50, 150, 900, 101, 99, 5000, 200. *)
Lemma opportunities_filtered_in_order_then_cut_witness :
  get_opt (report_of (rt := sample_runtime) example_url (Str "mobile")
             (full_payload (Num 0.9)) timestamp) "opportunities"
  = Arr (map (fun '(title, savings) =>
                Obj [("title", Str title); ("description", Str "how to fix it");
                     ("savings", Num savings);
                     ("displayValue", Str "Potential savings")])
           [("b", 150); ("c", 900); ("d", 101); ("f", 5000); ("g", 200)]%float).
Proof.
  apply (opportunities_filtered_in_order_then_cut (rt := sample_runtime)
           (answering (Fulfilled Null)) example_url (Str "mobile")
           (full_payload (Num 0.9)) _ []).
  reflexivity.
Defined.

(** C4: a category score of 0.873. *)
Lemma performanceScore_is_rounded_score_witness :
  get_opt (report_of (rt := sample_runtime) example_url (Str "mobile")
             (full_payload (Num 0.873)) timestamp) "performanceScore"
  = Num 87.
Proof.
  destruct (performanceScore_is_rounded_score (rt := sample_runtime)
              (answering (Fulfilled Null)) example_url (Str "mobile")
              (full_payload (Num 0.873))
              (report_of (rt := sample_runtime) example_url (Str "mobile")
                 (full_payload (Num 0.873)) timestamp)
              [] 0.873
              eq_refl eq_refl eq_refl eq_refl) as (negative & H & _).
  rewrite H. destruct negative; reflexivity.
Defined.

(** C5: the audits lack [total-blocking-time]. *)
Lemma missing_metric_is_internal_error_witness :
  run (answering (Fulfilled (payload (Num 0.9) (five_metrics [] ++ seven_audits))))
      (analyze None [("url", example_url); ("strategy", Str "desktop")])
  = (Ok Internal_Server_Error,
     [pagespeed_config [("url", example_url); ("strategy", Str "desktop");
                        ("category", Str "performance")]]).
Proof.
  apply (missing_metric_is_internal_error (rt := sample_runtime) None
           (answering (Fulfilled (payload (Num 0.9) (five_metrics [] ++ seven_audits))))
           [("url", example_url); ("strategy", Str "desktop")]
           [("url", example_url); ("strategy", Str "desktop");
            ("category", Str "performance")]
           (payload (Num 0.9) (five_metrics [] ++ seven_audits))
           "total-blocking-time").
  - reflexivity.
  - reflexivity.
  - reflexivity.
  - reflexivity.
  - simpl. auto.
  - reflexivity.
Defined.

(** C6: a request without a url and with a strategy that is not one of the
    two. *)
Lemma validation_errors_stay_local_witness :
  exists r,
    run (answering (Fulfilled (full_payload (Num 0.9))))
        (analyze None [("strategy", Str "tablet")])
    = (Ok r, [])
    /\ status r = 400 /\ r = URL_is_required.
Proof.
  apply (validation_errors_stay_local (rt := sample_runtime) None
           (answering (Fulfilled (full_payload (Num 0.9))))
           [("strategy", Str "tablet")]).
  left. reflexivity.
Defined.

(** C7: two upstream 403 answers with different bodies. *)
Lemma credential_error_is_generic_witness :
  let body := [("url", example_url)] in
  let leak1 := Obj [("error", Obj [("message", Str "API key expired: AIza-1")])] in
  let leak2 := Str "quota exceeded for project 42" in
  fst (run (answering (Rejected (forbidden leak1))) (analyze (Some "key") body))
  = Ok API_Key_Error
  /\ fst (run (answering (Rejected (forbidden leak2))) (analyze (Some "key") body))
     = fst (run (answering (Rejected (forbidden leak1))) (analyze (Some "key") body)).
Proof.
  intros body leak1 leak2.
  apply (credential_error_is_generic (rt := sample_runtime) (Some "key")
           (answering (Rejected (forbidden leak1)))
           (answering (Rejected (forbidden leak2)))
           body
           [("url", example_url); ("strategy", Str "mobile"); ("key", Str "key");
            ("category", Str "performance")]
           (forbidden leak1) (forbidden leak2) leak1 leak2); reflexivity.
Defined.

(** C8: the upstream score of [largest-contentful-paint] is null. *)
Lemma metric_scores_pass_through_witness :
  let report := report_of (rt := sample_runtime) example_url (Str "mobile")
                  (full_payload (Num 0.9)) timestamp in
  let reported :=
    get_opt (get_opt (get_opt report "metrics") "largestContentfulPaint") "score" in
  reported = Null /\ reported <> Num 0.
Proof.
  intros report reported.
  apply (metric_scores_pass_through (rt := sample_runtime)
           (answering (Fulfilled Null)) example_url (Str "mobile")
           (full_payload (Num 0.9)) report []
           "largest-contentful-paint" "largestContentfulPaint").
  - reflexivity.
  - simpl. auto.
  - reflexivity.
Defined.

(** C9: [example.com]. *)
Lemma scheme_less_url_is_invalid_witness :
  validate_url (rt := sample_runtime) (Str "example.com") = Some Invalid_URL
  /\ run (answering (Fulfilled (full_payload (Num 0.9))))
         (analyze None [("url", Str "example.com")])
     = (Ok Invalid_URL, []).
Proof.
  apply (scheme_less_url_is_invalid (rt := sample_runtime) None
           (answering (Fulfilled (full_payload (Num 0.9))))
           [("url", Str "example.com")] "example.com").
  - intros s' H. exact H.
  - reflexivity.
  - reflexivity.
  - discriminate.
Defined.

(** C9, as first stated, fails on the empty string: it has no scheme, and
    it is rejected as [URL is required], not as [Invalid URL]. *)
Lemma empty_url_is_required_not_invalid :
  URL.has_scheme "" = false
  /\ run (answering (Fulfilled (full_payload (Num 0.9))))
         (analyze None [("url", Str "")])
     = (Ok URL_is_required, [])
  /\ URL_is_required <> Invalid_URL.
Proof. repeat split; try reflexivity. discriminate. Qed.


End Witnesses.

(** * Beyond the settled claims

    The rest of [backend/server.js] and the pure parts of the frontend's
    [App.tsx]: the remaining branches of the error classifier, the query
    builder on its edge inputs, the optional fields of the report, the
    range of the scores, the check of Compare, and the request the
    frontend builds. *)

(** ** The frontend *)

Module Frontend.

Section CheckSpeed.

(** [String.prototype.trim], a builtin of the runtime. *)
Variable trim : string -> string.

(** [checkSpeed], lines 63-73 of [App.tsx]: [None] is the early return
    with the error [Please enter a valid URL], before any request. *)
Definition formatUrl (url : string) : option string :=
  if String.eqb (trim url) "" then None
  else
    let formattedUrl := trim url in
    Some (if negb (prefix "http://" formattedUrl)
             && negb (prefix "https://" formattedUrl)
          then "https://" ++ formattedUrl
          else formattedUrl)%string.

End CheckSpeed.

(** The body [checkSpeed] posts to [/api/pagespeed] (lines 86-90), as
    [express.json()] hands it to the handler. *)
Definition request_body (formattedUrl strategy : string) : list (string * value) :=
  [("url", Str formattedUrl); ("strategy", Str strategy);
   ("categories", Arr [Str "performance"])].

(** Lines 93-106 of [checkSpeed]: the value of [errorMessage] that is
    handed to [new Error] when the response is not ok.  [errorData] is
    what [JSON.parse] made of the response text, [None] when it threw;
    reading [message] off [null] throws as well, and both are caught by
    the inner [catch]. *)
Definition errorMessage (errorData : option value) (statusText : string) : value :=
  let errorMessage := Str "Failed to check page speed" in
  match errorData with
  | Some errorData =>
      if nullish errorData then or_else (Str statusText) errorMessage
      else or_else (get_opt errorData "message") errorMessage
  | None => or_else (Str statusText) errorMessage
  end.

(** [getScoreColor] and [getScoreLabel], lines 142-152. *)
Definition getScoreColor (score : float) : string :=
  if (90 <=? score)%float then "text-green-600"
  else if (50 <=? score)%float then "text-orange-500"
  else "text-red-600".

Definition getScoreLabel (score : float) : string :=
  if (90 <=? score)%float then "Good"
  else if (50 <=? score)%float then "Needs Improvement"
  else "Poor".

Section Format.
Context {rt : Runtime}.

(** [formatMetricScore] and [formatMetricDisplay], lines 154-162; [None]
    when the conversion of [score] throws. *)
Definition formatMetricScore (score : value) : option value :=
  match score with
  | Null => Some (Num 0)
  | _ => option_map (fun x => Num (Math_round x)) (mul score (Num 100))
  end.

Definition formatMetricDisplay (score : value) : option value :=
  match score with
  | Null => Some (Str "N/A")
  | _ => option_map (fun x => Num (Math_round x)) (mul score (Num 100))
  end.

End Format.

End Frontend.

Module MoreSamples.

(** An upstream answer 503 with a message, and a connection reset. *)
Definition unavailable : js_error :=
  {| response :=
       Some (503, Obj [("error",
                        Obj [("code", Num 503);
                             ("message", Str "The service is currently unavailable.")])]);
     code := Some "ERR_BAD_RESPONSE";
     message := "Request failed with status code 503" |}.

(** An upstream answer 400 whose message is an object with a [toString]
    property that is no function. *)
Definition bad_request_with_object_message : js_error :=
  {| response :=
       Some (400, Obj [("error", Obj [("message", Obj [("toString", Num 1)])])]);
     code := Some "ERR_BAD_REQUEST";
     message := "Request failed with status code 400" |}.

(** An audit whose savings are an object with a [toString] property that
    is no function. *)
Definition audit_with_object_savings : value :=
  Obj [("title", Str "h"); ("description", Str "how to fix it");
       ("details", Obj [("type", Str "opportunity");
                        ("overallSavingsMs", Obj [("toString", Num 1)])])].

(** [String.prototype.trim] on ASCII white space. *)
Definition is_white_space (c : ascii) : bool :=
  let n := nat_of_ascii c in ((n =? 32) || ((9 <=? n) && (n <=? 13)))%nat.

Fixpoint trimStart (s : string) : string :=
  match s with
  | EmptyString => EmptyString
  | String c rest => if is_white_space c then trimStart rest else s
  end.

Fixpoint trimEnd (s : string) : string :=
  match s with
  | EmptyString => EmptyString
  | String c rest =>
      match trimEnd rest with
      | EmptyString => if is_white_space c then EmptyString else String c EmptyString
      | kept => String c kept
      end
  end.

Definition trim (s : string) : string := trimEnd (trimStart s).

End MoreSamples.

(** [categories] is not an array: the call of [forEach] throws. *)
Definition not_an_array (v : value) : bool :=
  match v with Arr _ => false | _ => true end.

(** What [k] right shifts have done to the mantissa [m0]: the record
    holds the quotient by [2^k], and a round or sticky bit is set only if
    the division left a remainder. *)
Definition shifted (m0 k : Z) (mrs : shr_record) : Prop :=
  shr_m mrs = m0 / 2 ^ k
  /\ (shr_r mrs || shr_s mrs = true -> m0 mod 2 ^ k <> 0).

(** ** The range of a rounded score *)

Section ScoreRange.

Lemma shr_1_shifted m0 k mrs :
  0 <= m0 -> 0 <= k -> shifted m0 k mrs -> shifted m0 (k + 1) (shr_1 mrs).
Proof.
  intros Hm0 Hk [Hm Hf].
  assert (Hpos : 0 < 2 ^ k) by (apply Z.pow_pos_nonneg; lia).
  assert (Hq : 0 <= shr_m mrs) by (rewrite Hm; apply Z.div_pos; lia).
  assert (Hdiv : m0 / 2 ^ (k + 1) = shr_m mrs / 2).
  { rewrite Z.pow_add_r, Z.pow_1_r by lia. rewrite <- Z.div_div by lia.
    rewrite Hm. reflexivity. }
  assert (Hmod : m0 mod 2 ^ (k + 1) = 0 -> m0 mod 2 ^ k = 0 /\ shr_m mrs mod 2 = 0).
  { intros H0. rewrite Z.pow_add_r, Z.pow_1_r in H0 by lia.
    rewrite Z.rem_mul_r in H0 by lia. fold (m0 / 2 ^ k) in H0. rewrite <- Hm in H0.
    pose proof (Z.mod_pos_bound m0 (2 ^ k) Hpos).
    pose proof (Z.mod_pos_bound (shr_m mrs) 2 ltac:(lia)). nia. }
  destruct mrs as [m r s]. cbn [shr_m shr_r shr_s] in *.
  split.
  - rewrite Hdiv. destruct m as [| [p | p |] | p]; cbn [shr_1 shr_m].
    + reflexivity.
    + rewrite Pos2Z.inj_xI. apply (Z.div_unique _ 2 _ 1); lia.
    + rewrite Pos2Z.inj_xO. apply (Z.div_unique _ 2 _ 0); lia.
    + reflexivity.
    + lia.
  - intros Hflag H0. destruct (Hmod H0) as [H1 H2]. apply Hf; [| exact H1].
    destruct m as [| [p | p |] | p]; cbn [shr_1 shr_r shr_s] in Hflag.
    + destruct r, s; simpl in *; congruence.
    + rewrite Pos2Z.inj_xI, Z.add_comm, Z.mul_comm, Z.mod_add in H2 by lia.
      discriminate H2.
    + destruct r, s; simpl in *; congruence.
    + discriminate H2.
    + lia.
Qed.

Lemma iter_shr_1_shifted m0 n : forall k mrs,
  0 <= m0 -> 0 <= k -> shifted m0 k mrs ->
  shifted m0 (k + Zpos n) (SpecFloat.iter_pos shr_1 n mrs).
Proof.
  induction n as [n IH | n IH |]; intros k mrs Hm0 Hk H; cbn [SpecFloat.iter_pos].
  - replace (k + Z.pos n~1) with ((k + 1 + Z.pos n) + Z.pos n) by lia.
    apply IH; [lia | lia |]. apply IH; [lia | lia |].
    apply shr_1_shifted; assumption.
  - replace (k + Z.pos n~0) with ((k + Z.pos n) + Z.pos n) by lia.
    apply IH; [lia | lia |]. apply IH; assumption.
  - apply shr_1_shifted; assumption.
Qed.

Lemma shr_fexp_shifted m e :
  0 <= m ->
  let r := shr_fexp prec emax m e loc_Exact in
  e <= snd r /\ shifted m (snd r - e) (fst r).
Proof.
  intros Hm. unfold shr_fexp, shr. cbn [shr_record_of_loc].
  assert (H0 : shifted m 0 {| shr_m := m; shr_r := false; shr_s := false |}).
  { split; cbn [shr_m shr_r shr_s]; [| discriminate].
    rewrite Z.pow_0_r, Z.div_1_r. reflexivity. }
  destruct (fexp prec emax (Zdigits2 m + e) - e) as [| n | n]; cbn [fst snd].
  - replace (e - e) with 0 by lia. split; [lia | exact H0].
  - split; [lia |]. replace (e + Z.pos n - e) with (0 + Z.pos n) by lia.
    apply iter_shr_1_shifted; [assumption | lia | exact H0].
  - replace (e - e) with 0 by lia. split; [lia | exact H0].
Qed.

Lemma round_nearest_even_shifted mrs :
  round_nearest_even (shr_m mrs) (loc_of_shr_record mrs) <= shr_m mrs + 1
  /\ (shr_r mrs || shr_s mrs = false ->
      round_nearest_even (shr_m mrs) (loc_of_shr_record mrs) = shr_m mrs).
Proof.
  destruct mrs as [m [] []]; cbn; try destruct (Z.even m); split; intros; try lia;
    discriminate.
Qed.

Lemma binary_round_aux_le sx mx ex k B m e :
  0 < mx -> ex < 0 -> Zdigits2 mx + ex <= k -> 0 <= k <= 51 ->
  0 <= B -> mx <= B * 2 ^ (- ex) ->
  binary_round_aux prec emax sx mx ex loc_Exact = S754_finite sx m e ->
  ex <= e /\ e < 0 /\ Zpos m * 2 ^ (e - ex) <= B * 2 ^ (- ex).
Proof.
  intros Hm He Hd Hk HB Hle. unfold binary_round_aux.
  pose proof (shr_fexp_facts mx ex ltac:(lia)) as F1.
  pose proof (shr_fexp_shifted mx ex ltac:(lia)) as G1.
  destruct (shr_fexp prec emax mx ex loc_Exact) as [mrs' e'].
  cbn [fst snd] in F1, G1. destruct F1 as (P1 & E1 & D1). destruct G1 as (L1 & S1 & R1).
  pose proof (round_nearest_even_facts (shr_m mrs') (loc_of_shr_record mrs') P1) as [P2 D2].
  pose proof (round_nearest_even_shifted mrs') as [U2 X2].
  set (m1 := round_nearest_even (shr_m mrs') (loc_of_shr_record mrs')) in *.
  pose proof (shr_fexp_facts m1 e' P2) as F3.
  pose proof (shr_fexp_shifted m1 e' P2) as G3.
  destruct (shr_fexp prec emax m1 e' loc_Exact) as [mrs'' e''].
  cbn [fst snd] in F3, G3. destruct F3 as (P3 & E3 & D3). destruct G3 as (L3 & S3 & _).
  assert (Hneg' : e' < 0).
  { unfold fexp, SpecFloat.emin, prec, emax in *. lia. }
  assert (Hneg : e'' < 0).
  { unfold fexp, SpecFloat.emin, prec, emax in *. lia. }
  clear E1 E3 D1 D3.
  destruct (shr_m mrs'') as [| p | p] eqn:Em; try discriminate.
  destruct (e'' <=? emax - prec); [| discriminate].
  intros H. inversion H; subst p e''. clear H.
  split; [lia |]. split; [assumption |].
  set (n1 := e' - ex) in *. set (n2 := e - e') in *.
  assert (Hn1 : 0 <= n1) by (unfold n1; lia).
  assert (Hn2 : 0 <= n2) by (unfold n2; lia).
  assert (Hp1 : 0 < 2 ^ n1) by (apply Z.pow_pos_nonneg; lia).
  assert (Hp2 : 0 < 2 ^ n2) by (apply Z.pow_pos_nonneg; lia).
  assert (Hsplit : 2 ^ (- ex) = 2 ^ (- e') * 2 ^ n1).
  { rewrite <- Z.pow_add_r by lia. f_equal. unfold n1. lia. }
  assert (Hpow : 2 ^ (e - ex) = 2 ^ n2 * 2 ^ n1).
  { rewrite <- Z.pow_add_r by lia. f_equal. unfold n1, n2. lia. }
  set (N := B * 2 ^ (- e')).
  assert (HN : B * 2 ^ (- ex) = N * 2 ^ n1) by (unfold N; rewrite Hsplit; ring).
  assert (Hm1 : m1 <= N).
  { assert (Hq : shr_m mrs' <= N).
    { rewrite S1. apply Z.div_le_upper_bound; [assumption |]. lia. }
    destruct (Z.eq_dec (shr_m mrs') N) as [Heq | Hne]; [| lia].
    destruct (shr_r mrs' || shr_s mrs') eqn:Hflag.
    - exfalso. specialize (R1 eq_refl).
      pose proof (Z.div_mod mx (2 ^ n1) ltac:(lia)) as Hdm.
      pose proof (Z.mod_pos_bound mx (2 ^ n1) Hp1) as Hb.
      rewrite <- S1, Heq in Hdm. lia.
    - rewrite (X2 eq_refl). lia. }
  assert (Hm2 : Zpos m * 2 ^ n2 <= m1).
  { rewrite S3. rewrite Z.mul_comm. apply Z.mul_div_le. assumption. }
  rewrite Hpow, HN. nia.
Qed.

Lemma SF2Q_le m e ex B :
  ex <= e -> e < 0 -> Zpos m * 2 ^ (e - ex) <= B * 2 ^ (- ex) ->
  (SF2Q (S754_finite false m e) <= inject_Z B)%Q.
Proof.
  intros Hex He Hle. unfold SF2Q. cbn [cond_Zopp].
  assert (Hq : (inject_Z (Zpos m) * 2 ^ (e - ex) <= inject_Z B * 2 ^ (- ex))%Q).
  { rewrite <- !(Zpower_Qpower 2) by lia. rewrite <- !inject_Z_mult.
    rewrite <- Zle_Qle. exact Hle. }
  assert (Hp : (0 < 2 ^ ex)%Q) by (apply Qpower_0_lt; reflexivity).
  assert (H1 : (2 ^ (e - ex) * 2 ^ ex == 2 ^ e)%Q).
  { rewrite <- Qpower_plus by discriminate. replace (e - ex + ex) with e by lia.
    reflexivity. }
  assert (H2 : (2 ^ (- ex) * 2 ^ ex == 1)%Q).
  { rewrite <- Qpower_plus by discriminate. replace (- ex + ex) with 0 by lia.
    reflexivity. }
  apply (Qmult_le_compat_r _ _ (2 ^ ex)%Q) in Hq; [| apply Qlt_le_weak; exact Hp].
  rewrite <- !Qmult_assoc, H1, H2, Qmult_1_r in Hq. exact Hq.
Qed.

Lemma score_times_100_le (s : float) :
  (0 <=? s)%float = true -> (s <=? 1)%float = true ->
  (SF2Q (Prim2SF (s * 100)) <= 100)%Q.
Proof.
  intros H0 H1.
  destruct (score_times_100 s H0 H1) as [[b Hz] | (m' & e' & Hf & He' & Hd')].
  { rewrite Hz. discriminate. }
  revert H0 H1 Hf. rewrite !leb_spec, mul_spec.
  change (Prim2SF 0) with (S754_zero false).
  change (Prim2SF 1) with (S754_finite false 4503599627370496 (-52)).
  change (Prim2SF 100) with (S754_finite false 7036874417766400 (-46)).
  pose proof (Prim2SF_valid s) as Hv.
  destruct (Prim2SF s) as [b | b | | sg m e]; intros H0 H1 Hf; try discriminate.
  destruct sg; [discriminate |].
  assert (Hd : Zdigits2 (Zpos m) <= 53).
  { cbn [valid_binary] in Hv. unfold bounded, canonical_mantissa in Hv.
    apply andb_prop in Hv. destruct Hv as [Hc _]. apply Z.eqb_eq in Hc.
    cbn [Zdigits2]. unfold fexp, SpecFloat.emin, prec, emax in Hc. lia. }
  assert (He : e <= -52 /\ Zpos m <= 2 ^ (- e)).
  { destruct (Zdigits2_bounds m) as [_ Hhi].
    assert (Hlt : Zpos m < 2 ^ 53).
    { eapply Z.lt_le_trans; [exact Hhi |]. apply Z.pow_le_mono_r; lia. }
    clear Hf Hv. unfold SFleb, SFcompare in H1.
    set (C := 4503599627370496%positive) in H1.
    assert (HC : Z.pos C = 2 ^ 52) by reflexivity. clearbody C.
    destruct (Z.compare_spec e (-52)) as [E | Hlt' | Hgt]; [| | discriminate].
    - split; [lia |]. rewrite E. change (- -52) with 52. rewrite <- HC.
      change (Pos.compare_cont Eq m C) with (Pos.compare m C) in H1.
      destruct (Pos.compare_spec m C) as [E' | Hlt' | Hgt]; [| | discriminate].
      + rewrite E'. apply Z.le_refl.
      + apply Z.lt_le_incl. apply Pos2Z.pos_lt_pos. exact Hlt'.
    - split; [lia |]. eapply Z.le_trans; [apply Z.lt_le_incl; exact Hlt |].
      apply Z.pow_le_mono_r; lia. }
  destruct He as [He Hm].
  unfold SF64mul, SFmul in Hf. cbn [xorb] in Hf.
  destruct (binary_round_aux_le false (Zpos (m * 7036874417766400)) (e + -46) 8 100 m' e')
    as (Hex & Hneg & Hval).
  - lia.
  - lia.
  - pose proof (Zdigits2_mul m 7036874417766400) as Hmul.
    change (Zdigits2 (Zpos 7036874417766400)) with 53 in Hmul. lia.
  - lia.
  - lia.
  - rewrite Pos2Z.inj_mul.
    assert (H100 : Z.pos 7036874417766400 = 100 * 2 ^ 46) by reflexivity.
    rewrite H100. replace (- (e + -46)) with (- e + 46) by lia.
    rewrite Z.pow_add_r by lia.
    replace (Z.pos m * (100 * 2 ^ 46)) with (100 * (Z.pos m * 2 ^ 46)) by ring.
    apply Z.mul_le_mono_nonneg_l; [lia |].
    apply Z.mul_le_mono_nonneg_r; [apply Z.pow_nonneg; lia | exact Hm].
  - exact Hf.
  - unfold SF64mul, SFmul. cbn [xorb]. rewrite Hf.
    change 100%Q with (inject_Z 100). eapply SF2Q_le; eassumption.
Qed.

Lemma round_half_up_le (q : Q) (k : Z) :
  (0 <= q)%Q -> (q <= inject_Z k)%Q -> 0 <= round_half_up q <= k.
Proof.
  intros Hq Hk. destruct (round_half_up_bounds q) as [Hlo Hhi].
  split.
  - assert (H : (inject_Z (-1) < inject_Z (round_half_up q))%Q).
    { change (inject_Z (-1)) with (-1)%Q. lra. }
    rewrite <- Zlt_Qlt in H. lia.
  - assert (H : (inject_Z (round_half_up q) < inject_Z (k + 1))%Q).
    { rewrite inject_Z_plus. change (inject_Z 1) with 1%Q. lra. }
    rewrite <- Zlt_Qlt in H. lia.
Qed.

Lemma rounded_score_in_range (s : float) :
  (0 <=? s)%float = true -> (s <=? 1)%float = true ->
  exists (negative : bool) (z : Z),
    Math_round (s * 100) = int_float negative z
    /\ 0 <= z <= 100
    /\ is_integer (int_float negative z) z = true.
Proof.
  intros H0 H1.
  destruct (Math_round_of_score s H0 H1) as (negative & Hr & Hi & _).
  exists negative, (round_half_up (SF2Q (Prim2SF (s * 100)))).
  split; [exact Hr |]. split; [| exact Hi].
  apply round_half_up_le.
  - destruct (score_times_100 s H0 H1) as [[b Hz] | (m & e & Hf & _)].
    + rewrite Hz. apply Qle_refl.
    + rewrite Hf. apply SF2Q_nonneg.
  - apply (score_times_100_le s H0 H1).
Qed.
End ScoreRange.

(** ** More on the two handlers *)

Section MoreHandlerFacts.
Context {rt : Runtime}.
Variable PAGESPEED_API_KEY : option string.

Local Abbreviation analyze := (analyze PAGESPEED_API_KEY).
Local Abbreviation compare := (compare PAGESPEED_API_KEY).
Local Abbreviation build_params := (build_params PAGESPEED_API_KEY).
Local Abbreviation compare_config := (compare_config PAGESPEED_API_KEY).
Local Abbreviation params_of := (params_of PAGESPEED_API_KEY).

Lemma build_params_throws url strategy categories :
  not_an_array categories = true ->
  exists msg, build_params url strategy categories = Raise (TypeError msg).
Proof.
  unfold Server.build_params, forEach.
  destruct categories; try discriminate; intros _; eexists; reflexivity.
Qed.

Lemma analyze_not_an_array w body :
  let url := assoc "url" body in
  let strategy := with_default (assoc "strategy" body) (Str "mobile") in
  let categories :=
    with_default (assoc "categories" body) (Arr [Str "performance"]) in
  validate_url url = None ->
  validate_strategy strategy = None ->
  not_an_array categories = true ->
  run w (analyze body) = (Ok Internal_Server_Error, []).
Proof.
  intros url strategy categories Hu Hs Hc.
  unfold Server.analyze, analyze_try. fold url strategy categories.
  rewrite Hu, Hs.
  destruct (build_params_throws url strategy categories Hc) as [msg ->].
  reflexivity.
Qed.

(** The request reaches the upstream: validation passes and the query
    [params] is built. *)
Definition reaches_upstream (body params : list (string * value)) : Prop :=
  validate_url (assoc "url" body) = None
  /\ validate_strategy (with_default (assoc "strategy" body) (Str "mobile")) = None
  /\ build_params (assoc "url" body)
       (with_default (assoc "strategy" body) (Str "mobile"))
       (with_default (assoc "categories" body) (Arr [Str "performance"]))
     = Ret params.

(** Line 188: the [message] of the [catch] block. *)
Definition upstream_message (errorData : value) : value :=
  or_else (get_opt (get_opt errorData "error") "message") (Str "API request failed").

(** The response written for an upstream status other than 403 and 429. *)
Definition api_error (st : Z) (errorData : value) (text : string) : http_response :=
  if st =? 400 then
    res_json 400 (Obj [
      ("error", Str "Bad Request");
      ("message", Str ("Google API Error: " ++ text));
      ("details", or_else (get_opt (get_opt errorData "error") "errors") Null)])
  else
    res_json st (Obj [
      ("error", Str "API Error");
      ("message", Str ("Google API Error: " ++ text))]).

Lemma analyze_upstream_error w body params e :
  reaches_upstream body params ->
  upstream w (pagespeed_config params) = Rejected e ->
  run w (analyze body) = (fst (run w (analyze_catch e)), [pagespeed_config params]).
Proof.
  intros (Hu & Hs & Hp) He.
  rewrite (analyze_run PAGESPEED_API_KEY w body params Hu Hs Hp), He. reflexivity.
Qed.

Lemma analyze_catch_response (e : js_error) (st : Z) (errorData : value) :
  response e = Some (st, errorData) ->
  analyze_catch e
  = if st =? 403 then Ret API_Key_Error
    else if st =? 429 then Ret Rate_Limited
    else match ToString (upstream_message errorData) with
         | Some text => Ret (api_error st errorData text)
         | None => Raise (TypeError "Cannot convert object to primitive value")
         end.
Proof.
  intros Hresp. unfold analyze_catch, api_error, upstream_message. rewrite Hresp.
  destruct (Z.eqb_spec st 400) as [-> | _].
  - simpl. destruct (ToString _); reflexivity.
  - destruct (st =? 403); [reflexivity |].
    destruct (st =? 429); [reflexivity |].
    destruct (ToString _); reflexivity.
Qed.

Lemma status_api_error st errorData text : status (api_error st errorData text) = st.
Proof.
  unfold api_error. destruct (Z.eqb_spec st 400) as [-> | _]; reflexivity.
Qed.

Lemma message_api_error st errorData text :
  get_opt (json (api_error st errorData text)) "message"
  = Str ("Google API Error: " ++ text).
Proof. unfold api_error. destruct (st =? 400); reflexivity. Qed.

Lemma analyze_catch_transport (e : js_error) :
  response e = None ->
  analyze_catch e
  = Ret (if match code e with
            | Some c => String.eqb c "ECONNABORTED"
            | None => false
            end
         then Timeout else Internal_Server_Error).
Proof.
  intros Hresp. unfold analyze_catch. rewrite Hresp. f_equal.
  destruct (code e) as [c |]; [| reflexivity].
  destruct (String.eqb_spec c "ECONNABORTED") as [-> | Hne]; [reflexivity |].
  repeat match goal with
  | |- context [match ?x with EmptyString => _ | String _ _ => _ end] =>
      is_var x; destruct x; try reflexivity
  | |- context [match ?x with Ascii _ _ _ _ _ _ _ _ => _ end] =>
      is_var x; destruct x
  | |- context [if ?b then _ else _] =>
      is_var b; destruct b; try reflexivity
  end.
  congruence.
Qed.

(** The message of the upstream's error answer cannot be written into the
    response: the status is neither 403 nor 429, and the conversion of the
    message to a string throws. *)
Definition message_throws (e : js_error) : Prop :=
  exists st errorData,
    response e = Some (st, errorData)
    /\ st <> 403 /\ st <> 429
    /\ ToString (upstream_message errorData) = None.

Lemma analyze_catch_outcome (w : world) (e : js_error) :
  (exists r, run w (analyze_catch e) = (Ok r, []))
  \/ (message_throws e
      /\ exists err, run w (analyze_catch e) = (Err err, []) /\ is_TypeError err).
Proof.
  destruct (response e) as [[st errorData] |] eqn:Hresp.
  - rewrite (analyze_catch_response e st errorData Hresp).
    destruct (Z.eqb_spec st 403) as [| H403]; [left; eexists; reflexivity |].
    destruct (Z.eqb_spec st 429) as [| H429]; [left; eexists; reflexivity |].
    destruct (ToString (upstream_message errorData)) eqn:Hm.
    + left. eexists; reflexivity.
    + right. split.
      * exists st, errorData. auto.
      * eexists. split; [reflexivity | split; reflexivity].
  - rewrite (analyze_catch_transport e Hresp). left. eexists; reflexivity.
Qed.

(** X1.  Whatever the request body and whatever the upstream does, the
    handler of [POST /api/pagespeed] calls the upstream at most once, and
    it answers, with one exception: when the upstream answered with an
    error status other than 403 and 429 and a message whose conversion to
    a string throws, the error leaves the [catch] block and the handler
    gives no response. *)
Theorem analyze_answers_unless_the_message_throws
  (w : world) (body : list (string * value)) :
  (List.length (snd (run w (analyze body))) <= 1)%nat
  /\ ((exists r, fst (run w (analyze body)) = Ok r)
      \/ (exists params e err,
            snd (run w (analyze body)) = [pagespeed_config params]
            /\ upstream w (pagespeed_config params) = Rejected e
            /\ message_throws e
            /\ fst (run w (analyze body)) = Err err
            /\ is_TypeError err)).
Proof.
  set (url := assoc "url" body).
  set (strategy := with_default (assoc "strategy" body) (Str "mobile")).
  set (categories := with_default (assoc "categories" body) (Arr [Str "performance"])).
  destruct (validate_url url) as [r |] eqn:Hu.
  { rewrite (analyze_rejected PAGESPEED_API_KEY w body r) by (left; exact Hu).
    simpl. split; [lia | left; eexists; reflexivity]. }
  destruct (validate_strategy strategy) as [r |] eqn:Hs.
  { rewrite (analyze_rejected PAGESPEED_API_KEY w body r) by (right; auto).
    simpl. split; [lia | left; eexists; reflexivity]. }
  destruct (not_an_array categories) eqn:Hc.
  { rewrite (analyze_not_an_array w body Hu Hs Hc).
    simpl. split; [lia | left; eexists; reflexivity]. }
  destruct categories as [| | | | | cats |] eqn:Ec; try discriminate.
  rewrite (analyze_run PAGESPEED_API_KEY w body (params_of url strategy cats) Hu Hs);
    [| fold categories; rewrite Ec; apply build_params_Arr].
  simpl. split; [lia |].
  destruct (upstream w (pagespeed_config (params_of url strategy cats)))
    as [data | e] eqn:Hup.
  - left. eexists; reflexivity.
  - destruct (analyze_catch_outcome w e) as [[r Hr] | [Hm (err & Herr & Hty)]].
    + left. exists r. rewrite Hr. reflexivity.
    + right. exists (params_of url strategy cats), e, err.
      rewrite Herr. auto.
Qed.

(** X2.  When the upstream answers a request that passed validation with
    an error status, the handler answers with that same status, whatever
    it is, after exactly one call, provided the status is 403 or 429 or
    the message converts to a string. *)
Theorem upstream_status_is_passed_through
  (w : world) (body params : list (string * value)) (e : js_error)
  (st : Z) (errorData : value) :
  reaches_upstream body params ->
  upstream w (pagespeed_config params) = Rejected e ->
  response e = Some (st, errorData) ->
  st = 403 \/ st = 429 \/ ToString (upstream_message errorData) <> None ->
  exists r,
    run w (analyze body) = (Ok r, [pagespeed_config params])
    /\ status r = st.
Proof.
  intros Hr He Hresp Hconv.
  rewrite (analyze_upstream_error w body params e Hr He).
  rewrite (analyze_catch_response e st errorData Hresp).
  destruct (Z.eqb_spec st 403) as [-> | H403]; [eexists; split; reflexivity |].
  destruct (Z.eqb_spec st 429) as [-> | H429]; [eexists; split; reflexivity |].
  destruct (ToString (upstream_message errorData)) as [text |].
  - exists (api_error st errorData text). split; [reflexivity |].
    apply status_api_error.
  - destruct Hconv as [? | [? | ?]]; congruence.
Qed.

(** X3.  For an upstream error status other than 403 and 429 the handler
    answers, and the answer's [message] is [Google API Error: ] followed
    by [API request failed] when the upstream's [error.message] is missing
    or falsy, and by that message when it is a non-empty string. *)
Theorem upstream_message_is_surfaced_or_defaulted
  (w : world) (body params : list (string * value)) (e : js_error)
  (st : Z) (errorData : value) :
  reaches_upstream body params ->
  upstream w (pagespeed_config params) = Rejected e ->
  response e = Some (st, errorData) ->
  st <> 403 -> st <> 429 ->
  let message := get_opt (get_opt errorData "error") "message" in
  (truthy message = false ->
   exists r,
     fst (run w (analyze body)) = Ok r
     /\ get_opt (json r) "message" = Str "Google API Error: API request failed")
  /\ (forall msg, message = Str msg -> msg <> "" ->
      exists r,
        fst (run w (analyze body)) = Ok r
        /\ get_opt (json r) "message" = Str ("Google API Error: " ++ msg)).
Proof.
  intros Hr He Hresp H403 H429 message.
  rewrite (analyze_upstream_error w body params e Hr He).
  rewrite (analyze_catch_response e st errorData Hresp).
  destruct (Z.eqb_spec st 403) as [| _]; [contradiction |].
  destruct (Z.eqb_spec st 429) as [| _]; [contradiction |].
  unfold upstream_message. fold message. split.
  - intros Hf. unfold or_else. rewrite Hf. cbn [ToString].
    eexists. split; [reflexivity | apply message_api_error].
  - intros msg Hm Hne. unfold or_else. rewrite Hm. simpl truthy.
    destruct (String.eqb_spec msg ""); [contradiction |]. cbn [negb ToString].
    eexists. split; [reflexivity | apply message_api_error].
Qed.

(** X21.  When the upstream answers a request that passed validation
    with an error status other than 403 and 429 and a message whose
    conversion to a string throws, the handler gives no response: the
    TypeError is thrown inside the [catch] block, after the one call. *)
Theorem unconvertible_message_leaves_the_catch
  (w : world) (body params : list (string * value)) (e : js_error) :
  reaches_upstream body params ->
  upstream w (pagespeed_config params) = Rejected e ->
  message_throws e ->
  exists err,
    run w (analyze body) = (Err err, [pagespeed_config params])
    /\ is_TypeError err.
Proof.
  intros Hr He (st & errorData & Hresp & H403 & H429 & Hm).
  rewrite (analyze_upstream_error w body params e Hr He).
  rewrite (analyze_catch_response e st errorData Hresp).
  destruct (Z.eqb_spec st 403) as [| _]; [contradiction |].
  destruct (Z.eqb_spec st 429) as [| _]; [contradiction |].
  rewrite Hm. eexists. split; [reflexivity | split; reflexivity].
Qed.

(** X4.  An upstream failure without a response is answered [Timeout]
    (408) exactly when the error code is [ECONNABORTED], and
    [Internal Server Error] (500) otherwise, also when there is no code. *)
Theorem transport_failures_are_timeout_or_internal
  (w : world) (body params : list (string * value)) (e : js_error) :
  reaches_upstream body params ->
  upstream w (pagespeed_config params) = Rejected e ->
  response e = None ->
  run w (analyze body)
  = (Ok (if match code e with
            | Some c => String.eqb c "ECONNABORTED"
            | None => false
            end
         then Timeout else Internal_Server_Error),
     [pagespeed_config params]).
Proof.
  intros Hr He Hresp.
  rewrite (analyze_upstream_error w body params e Hr He).
  rewrite (analyze_catch_transport e Hresp). reflexivity.
Qed.

(** Reading a property after a write of [category]. *)
Lemma assoc_set_category k v props :
  String.eqb k "category" = false ->
  assoc k (set_prop "category" v props) = assoc k props.
Proof.
  intros Hk. induction props as [| [k' v'] rest IH]; cbn [set_prop assoc].
  - rewrite Hk. reflexivity.
  - destruct (String.eqb_spec "category" k') as [<- | Hne]; cbn [assoc].
    + rewrite Hk. reflexivity.
    + rewrite IH. reflexivity.
Qed.

Lemma assoc_params_of k url strategy categories :
  String.eqb k "category" = false ->
  assoc k (params_of url strategy categories)
  = assoc k (if truthy (key_value PAGESPEED_API_KEY)
             then [("url", url); ("strategy", strategy);
                   ("key", key_value PAGESPEED_API_KEY)]
             else [("url", url); ("strategy", strategy)]).
Proof.
  intros Hk. unfold params_of.
  generalize (if truthy (key_value PAGESPEED_API_KEY)
              then [("url", url); ("strategy", strategy);
                    ("key", key_value PAGESPEED_API_KEY)]
              else [("url", url); ("strategy", strategy)]).
  induction categories as [| c rest IH]; intros base; cbn [fold_left].
  - reflexivity.
  - rewrite IH. apply assoc_set_category. exact Hk.
Qed.

(** X5.  A request that passes validation with an array of categories
    makes one call to the PageSpeed URL with a timeout of 30000 ms; its
    query carries the url and the strategy as validated, and the API key
    exactly when one is configured and non-empty. *)
Theorem query_carries_url_strategy_and_key
  (w : world) (body : list (string * value)) (categories : list value) :
  let url := assoc "url" body in
  let strategy := with_default (assoc "strategy" body) (Str "mobile") in
  validate_url url = None ->
  validate_strategy strategy = None ->
  with_default (assoc "categories" body) (Arr [Str "performance"]) = Arr categories ->
  exists params,
    snd (run w (analyze body))
    = [{| cfg_url := PAGESPEED_API_URL; cfg_params := params; cfg_timeout := 30000 |}]
    /\ assoc "url" params = url
    /\ assoc "strategy" params = strategy
    /\ assoc "key" params
       = match PAGESPEED_API_KEY with
         | Some k => if String.eqb k "" then Undefined else Str k
         | None => Undefined
         end.
Proof.
  intros url strategy Hu Hs Hc.
  exists (params_of url strategy categories). split.
  - rewrite (analyze_run PAGESPEED_API_KEY w body (params_of url strategy categories));
      auto.
    rewrite Hc. apply build_params_Arr.
  - rewrite !assoc_params_of by reflexivity.
    unfold key_value. destruct PAGESPEED_API_KEY as [k |]; simpl truthy.
    + destruct (String.eqb k ""); repeat split; reflexivity.
    + repeat split; reflexivity.
Qed.

(** X6.  When the body has neither [strategy] nor [categories], the query
    sent is the url, the strategy [mobile], the key if configured, and the
    category [performance], in this order. *)
Theorem omitted_strategy_and_categories_default
  (w : world) (body : list (string * value)) :
  let url := assoc "url" body in
  validate_url url = None ->
  assoc "strategy" body = Undefined ->
  assoc "categories" body = Undefined ->
  snd (run w (analyze body))
  = [pagespeed_config
       (if truthy (key_value PAGESPEED_API_KEY)
        then [("url", url); ("strategy", Str "mobile");
              ("key", key_value PAGESPEED_API_KEY);
              ("category", Str "performance")]
        else [("url", url); ("strategy", Str "mobile");
              ("category", Str "performance")])].
Proof.
  intros url Hu Hs Hc.
  rewrite (analyze_run PAGESPEED_API_KEY w body
             (params_of url (Str "mobile") [Str "performance"])).
  - unfold params_of.
    destruct (truthy (key_value PAGESPEED_API_KEY)); reflexivity.
  - exact Hu.
  - rewrite Hs. reflexivity.
  - rewrite Hs, Hc. apply build_params_Arr.
Qed.

(** X7.  With an empty array of categories the default is not used: the
    query has no [category] parameter at all. *)
Theorem empty_categories_send_no_category
  (w : world) (body : list (string * value)) :
  let url := assoc "url" body in
  let strategy := with_default (assoc "strategy" body) (Str "mobile") in
  validate_url url = None ->
  validate_strategy strategy = None ->
  assoc "categories" body = Arr [] ->
  exists params,
    snd (run w (analyze body)) = [pagespeed_config params]
    /\ filter is_category params = [].
Proof.
  intros url strategy Hu Hs Hc.
  exists (params_of url strategy []). split.
  - rewrite (analyze_run PAGESPEED_API_KEY w body (params_of url strategy [])); auto.
    rewrite Hc. apply build_params_Arr.
  - unfold params_of. cbn [fold_left].
    destruct (truthy (key_value PAGESPEED_API_KEY)); reflexivity.
Qed.

(** X8.  Categories that are given but are no array (a string, a number,
    [null], an object) are not rejected as a bad request: the call of
    [forEach] throws, and the answer is the generic 500 without any
    upstream call. *)
Theorem categories_that_are_no_array_answer_500
  (w : world) (body : list (string * value)) :
  let url := assoc "url" body in
  let strategy := with_default (assoc "strategy" body) (Str "mobile") in
  validate_url url = None ->
  validate_strategy strategy = None ->
  assoc "categories" body <> Undefined ->
  not_an_array (assoc "categories" body) = true ->
  run w (analyze body) = (Ok Internal_Server_Error, []).
Proof.
  intros url strategy Hu Hs Hdef Hc.
  apply analyze_not_an_array; try assumption.
  destruct (assoc "categories" body); try contradiction; exact Hc.
Qed.

(** X9.  After a fulfilled upstream call the handler answers 200 exactly
    when nothing in the extraction throws ([payload_ok]): the payload has
    the performance category with a score that converts to a number, it
    has the five metric audits, and every entry of its audits is neither
    null nor undefined and, if it has truthy details, has savings that
    convert to a number.  On any other payload it answers the generic
    500. *)
Theorem analyze_succeeds_exactly_on_well_formed_payloads
  (w : world) (body params : list (string * value)) (data : value) :
  reaches_upstream body params ->
  upstream w (pagespeed_config params) = Fulfilled data ->
  exists r,
    run w (analyze body) = (Ok r, [pagespeed_config params])
    /\ (status r = 200 <-> payload_ok data = true)
    /\ (payload_ok data = false -> r = Internal_Server_Error).
Proof.
  intros (Hu & Hs & Hp) Hd.
  rewrite (analyze_run PAGESPEED_API_KEY w body params Hu Hs Hp), Hd.
  eexists. split; [reflexivity |].
  destruct (payload_ok data); simpl; split; try split; intros; try reflexivity;
    try discriminate.
Qed.

(** X22.  A fulfilled payload in which the category score, or the
    savings of an audit that has truthy details, is a value whose
    conversion to a number throws is answered with the generic 500, after
    the one call: the multiplication and the comparison throw inside the
    [try] block. *)
Theorem unconvertible_numbers_answer_500
  (w : world) (body params : list (string * value)) (data : value) :
  reaches_upstream body params ->
  upstream w (pagespeed_config params) = Fulfilled data ->
  ToNumber (category_score data) = None
  \/ (exists key audit,
        In (key, audit) (entries_of (audits_of data))
        /\ truthy (get_opt audit "details") = true
        /\ ToNumber (get_opt (get_opt audit "details") "overallSavingsMs") = None) ->
  run w (analyze body) = (Ok Internal_Server_Error, [pagespeed_config params]).
Proof.
  intros (Hu & Hs & Hp) Hd Hbad.
  rewrite (analyze_run PAGESPEED_API_KEY w body params Hu Hs Hp), Hd.
  replace (payload_ok data) with false; [reflexivity |].
  symmetry. destruct (payload_ok data) eqn:Hok; [| reflexivity].
  unfold payload_ok in Hok. rewrite !andb_true_iff in Hok.
  destruct Hok as [[[_ Hcv] _] Hall].
  destruct Hbad as [Hscore | (key & audit & Hin & Hdet & Hsav)].
  - unfold converts in Hcv. rewrite Hscore in Hcv. discriminate.
  - rewrite forallb_forall in Hall. specialize (Hall (key, audit) Hin).
    unfold audit_ok, converts in Hall. simpl in Hall.
    rewrite Hdet, Hsav in Hall. rewrite andb_false_r in Hall. discriminate.
Qed.

(** *** The report *)

(** X10.  On a payload on which nothing in the extraction throws
    ([payload_ok]), the report's [url] and [strategy] are the request's,
    [timestamp] is the clock's, and [fieldData] and [screenshot] are the
    payload's [loadingExperience] and final screenshot data when truthy
    and [null] otherwise; the extraction makes no call. *)
Theorem optional_fields_pass_through_or_null
  (w : world) (url strategy data : value) :
  payload_ok data = true ->
  let loadingExperience := get_opt data "loadingExperience" in
  let screenshot :=
    get_opt (get_opt (get_opt (audits_of data) "final-screenshot") "details")
      "data" in
  exists report,
    run w (extract_report url strategy data) = (Ok report, [])
    /\ get_opt report "url" = url
    /\ get_opt report "strategy" = strategy
    /\ get_opt report "timestamp" = Str (clock w)
    /\ get_opt report "fieldData"
       = (if truthy loadingExperience then loadingExperience else Null)
    /\ get_opt report "screenshot" = (if truthy screenshot then screenshot else Null).
Proof.
  intros Hok loadingExperience screenshot.
  exists (report_of url strategy data (clock w)).
  split; [apply extract_report_total; exact Hok |].
  repeat split; reflexivity.
Qed.

Lemma Forall_firstn {A : Type} (P : A -> Prop) (n : nat) (l : list A) :
  Forall P l -> Forall P (firstn n l).
Proof.
  revert n. induction l as [| a l IH]; intros [| n] H; simpl; auto.
  inversion H; subst. constructor; auto.
Qed.

Lemma qualifies_savings (audit : value) :
  qualifies audit = true ->
  gt (get_opt (opportunity audit) "savings") 100 = Some true.
Proof.
  unfold qualifies. intros H. apply andb_prop in H. destruct H as [_ H].
  change (get_opt (opportunity audit) "savings")
    with (get_opt (get_opt audit "details") "overallSavingsMs").
  destruct (gt (get_opt (get_opt audit "details") "overallSavingsMs") 100)
    as [[|] |]; try discriminate. reflexivity.
Qed.

(** X11.  The [opportunities] of a report are at most five, as many as
    there are qualifying audits up to five, and each has [savings]
    greater than 100. *)
Theorem opportunities_are_at_most_five_and_above_threshold
  (w : world) (url strategy data report : value) (t : list request_config) :
  run w (extract_report url strategy data) = (Ok report, t) ->
  let qualifying := filter qualifies (map snd (entries_of (audits_of data))) in
  exists opportunities,
    get_opt report "opportunities" = Arr opportunities
    /\ (List.length opportunities <= 5)%nat
    /\ List.length opportunities = Nat.min 5 (List.length qualifying)
    /\ Forall (fun o => gt (get_opt o "savings") 100 = Some true) opportunities.
Proof.
  intros H qualifying. apply extract_report_Ok in H. destruct H as (-> & _ & _).
  exists (firstn 5 (map opportunity qualifying)).
  split; [reflexivity |].
  assert (Hlen : List.length (firstn 5 (map opportunity qualifying))
                 = Nat.min 5 (List.length qualifying)).
  { rewrite List.length_firstn, List.length_map. reflexivity. }
  split; [rewrite Hlen; apply Nat.le_min_l |]. split; [exact Hlen |].
  apply Forall_firstn. apply Forall_map. apply Forall_forall.
  intros a Ha. apply qualifies_savings.
  unfold qualifying in Ha. apply filter_In in Ha. tauto.
Qed.

(** X12.  For a category score in [0, 1] the [performanceScore] of the
    report is an integer between 0 and 100. *)
Theorem performanceScore_is_between_0_and_100
  (w : world) (url strategy data report : value) (t : list request_config)
  (s : float) :
  run w (extract_report url strategy data) = (Ok report, t) ->
  category_score data = Num s ->
  (0 <=? s)%float = true ->
  (s <=? 1)%float = true ->
  exists (negative : bool) (z : Z),
    get_opt report "performanceScore" = Num (int_float negative z)
    /\ 0 <= z <= 100
    /\ is_integer (int_float negative z) z = true.
Proof.
  intros H Hs H0 H1.
  apply extract_report_Ok in H. destruct H as (-> & _ & _).
  destruct (rounded_score_in_range s H0 H1) as (negative & z & Hr & Hz & Hi).
  exists negative, z. split; [| split; assumption].
  unfold report_of. cbn [get_opt assoc String.eqb Ascii.eqb Bool.eqb].
  rewrite Hs. unfold number_of. cbn [ToNumber]. rewrite Hr. reflexivity.
Qed.

(** *** Compare *)

Lemma compare_bad_url w body :
  truthy (assoc "url" body) = false \/ isValidUrl (assoc "url" body) = false ->
  run w (compare body) = (Ok Compare_Invalid_URL, []).
Proof.
  intros H. unfold Server.compare, compare_try.
  destruct H as [-> | ->]; [reflexivity |].
  rewrite orb_true_r. reflexivity.
Qed.

(** X13.  [POST /api/pagespeed/compare] answers a missing, falsy or
    unparsable url with 400 [Invalid URL] and makes no upstream call. *)
Theorem compare_rejects_bad_url_locally
  (w : world) (body : list (string * value)) :
  let url := assoc "url" body in
  truthy url = false \/ isValidUrl url = false ->
  exists r,
    run w (compare body) = (Ok r, [])
    /\ status r = 400
    /\ get_opt (json r) "error" = Str "Invalid URL".
Proof.
  intros url H. exists Compare_Invalid_URL.
  split; [apply compare_bad_url; exact H |]. split; reflexivity.
Qed.

(** X14.  The compare handler always answers.  It makes either no call
    (and answers [Invalid URL]) or exactly two, mobile first and desktop
    second; after the calls it answers 200 or the generic 500, and 200
    exactly when every fulfilled call carries a performance category
    whose score converts to a number ([scored]). *)
Theorem compare_answers_with_no_or_two_calls
  (w : world) (body : list (string * value)) :
  let url := assoc "url" body in
  let mobileResponse := upstream w (compare_config url "mobile") in
  let desktopResponse := upstream w (compare_config url "desktop") in
  exists r,
    fst (run w (compare body)) = Ok r
    /\ ((snd (run w (compare body)) = [] /\ r = Compare_Invalid_URL)
        \/ (snd (run w (compare body))
            = [compare_config url "mobile"; compare_config url "desktop"]
            /\ (r = Compare_Internal_Server_Error \/ status r = 200)
            /\ (status r = 200
                <-> scored mobileResponse && scored desktopResponse = true))).
Proof.
  intros url m d.
  destruct (truthy url) eqn:Ht.
  - destruct (isValidUrl url) eqn:Hv.
    + rewrite (compare_run PAGESPEED_API_KEY w body Ht Hv). fold url m d.
      eexists. split; [reflexivity |]. right. split; [reflexivity |].
      destruct (scored m && scored d); simpl; split; auto; split; intros;
        try reflexivity; discriminate.
    + exists Compare_Invalid_URL.
      rewrite (compare_bad_url w body) by (right; exact Hv). simpl. auto.
  - exists Compare_Invalid_URL.
    rewrite (compare_bad_url w body) by (left; exact Ht). simpl. auto.
Qed.

(** X15.  In a comparison, a strategy whose call is fulfilled with a
    category score in [0, 1] is reported with status [success] and an
    integer score between 0 and 100, provided the other call was
    rejected or was fulfilled with a performance category whose score
    converts to a number ([scored]). *)
Theorem compare_scores_are_between_0_and_100
  (w : world) (body : list (string * value)) (data : value) (s : float)
  (name other : string) :
  let url := assoc "url" body in
  truthy url = true ->
  isValidUrl url = true ->
  (name, other) = ("mobile", "desktop") \/ (name, other) = ("desktop", "mobile") ->
  upstream w (compare_config url name) = Fulfilled data ->
  category_score data = Num s ->
  (0 <=? s)%float = true ->
  (s <=? 1)%float = true ->
  scored (upstream w (compare_config url other)) = true ->
  exists r (negative : bool) (z : Z),
    fst (run w (compare body)) = Ok r
    /\ status r = 200
    /\ get_opt (get_opt (json r) "data") name
       = Obj [("score", Num (int_float negative z)); ("status", Str "success")]
    /\ 0 <= z <= 100.
Proof.
  intros url Ht Hv Hname Hcmp Hs H0 H1 Hother.
  destruct (rounded_score_in_range s H0 H1) as (negative & z & Hr & Hz & _).
  assert (Hsc : scored (Fulfilled data) = true).
  { unfold scored. rewrite Hs. unfold category_score in Hs.
    destruct (get_opt (get_opt (get_opt data "lighthouseResult") "categories")
                "performance"); simpl in Hs; try discriminate; reflexivity. }
  assert (Hout : StrategyOutcome (Fulfilled data)
                 = Obj [("score", Num (int_float negative z));
                        ("status", Str "success")]).
  { simpl. rewrite Hs. unfold number_of. cbn [ToNumber]. rewrite Hr.
    reflexivity. }
  rewrite (compare_run PAGESPEED_API_KEY w body Ht Hv). fold url.
  destruct Hname as [Hn | Hn]; inversion Hn; subst name other;
    rewrite Hcmp, Hother, Hsc; simpl fst.
  - eexists _, negative, z. split; [reflexivity |]. split; [reflexivity |].
    split; [| exact Hz]. rewrite <- Hout. reflexivity.
  - eexists _, negative, z. split; [reflexivity |]. split; [reflexivity |].
    split; [| exact Hz]. rewrite <- Hout. reflexivity.
Qed.

(** *** The frontend's request *)

Lemma prefix_nil (t : string) : prefix "" t = true.
Proof. destruct t; reflexivity. Qed.

Lemma prefix_app (p t : string) :
  prefix p t = true -> exists rest, t = (p ++ rest)%string.
Proof.
  revert t. induction p as [| c p IH]; intros t H.
  - exists t. reflexivity.
  - destruct t as [| c' t]; [discriminate |]. cbn [prefix] in H.
    destruct (Ascii.ascii_dec c c') as [<- | Hne]; [| discriminate].
    destruct (IH t H) as [rest ->]. exists rest. reflexivity.
Qed.

Lemma formatUrl_cases (trim : string -> string) (url f : string) :
  Frontend.formatUrl trim url = Some f ->
  exists rest, f = ("http://" ++ rest)%string \/ f = ("https://" ++ rest)%string.
Proof.
  unfold Frontend.formatUrl.
  destruct (String.eqb (trim url) ""); [discriminate |].
  destruct (prefix "http://" (trim url)) eqn:H1; cbn [negb andb].
  - intros H. inversion H; subst f.
    destruct (prefix_app _ _ H1) as [rest ->]. exists rest. auto.
  - destruct (prefix "https://" (trim url)) eqn:H2; cbn [negb].
    + intros H. inversion H; subst f.
      destruct (prefix_app _ _ H2) as [rest ->]. exists rest. auto.
    + intros H. inversion H. exists (trim url). auto.
Qed.

(** X16.  [checkSpeed] sends nothing when the trimmed input is empty;
    otherwise the url it sends starts with [http://] or [https://], so it
    is never empty and never without a scheme. *)
Theorem frontend_url_has_http_scheme
  (trim : string -> string) (url : string) :
  match Frontend.formatUrl trim url with
  | None => trim url = ""
  | Some formattedUrl =>
      trim url <> ""
      /\ (prefix "http://" formattedUrl || prefix "https://" formattedUrl = true)
      /\ URL.has_scheme formattedUrl = true
      /\ truthy (Str formattedUrl) = true
  end.
Proof.
  destruct (Frontend.formatUrl trim url) as [f |] eqn:E.
  - destruct (formatUrl_cases trim url f E) as [rest [-> | ->]].
    + split; [| repeat split; simpl; rewrite ?prefix_nil; reflexivity].
      unfold Frontend.formatUrl in E.
      destruct (String.eqb_spec (trim url) ""); [discriminate | assumption].
    + split; [| repeat split; simpl; rewrite ?prefix_nil; reflexivity].
      unfold Frontend.formatUrl in E.
      destruct (String.eqb_spec (trim url) ""); [discriminate | assumption].
  - unfold Frontend.formatUrl in E.
    destruct (String.eqb_spec (trim url) ""); [assumption | discriminate].
Qed.

(** X17.  The request the frontend posts is never answered
    [URL is required] or [Invalid strategy]: either the URL parser rejects
    the formatted url and the answer is [Invalid URL] without a call, or
    one upstream call is made with that url, the chosen strategy and the
    single category [performance]. *)
Theorem frontend_request_is_rejected_or_sent_with_one_category
  (trim : string -> string) (w : world) (url formattedUrl strategy : string) :
  Frontend.formatUrl trim url = Some formattedUrl ->
  strategy = "mobile" \/ strategy = "desktop" ->
  let body := Frontend.request_body formattedUrl strategy in
  (URL_parses (Str formattedUrl) = false ->
   run w (analyze body) = (Ok Invalid_URL, []))
  /\ (URL_parses (Str formattedUrl) = true ->
      exists params,
        snd (run w (analyze body)) = [pagespeed_config params]
        /\ assoc "url" params = Str formattedUrl
        /\ assoc "strategy" params = Str strategy
        /\ filter is_category params = [("category", Str "performance")]).
Proof.
  intros Hf Hs body.
  assert (Ht : truthy (Str formattedUrl) = true).
  { destruct (formatUrl_cases trim url formattedUrl Hf) as [rest [-> | ->]];
      reflexivity. }
  assert (Hstrat : validate_strategy (Str strategy) = None).
  { destruct Hs as [-> | ->]; reflexivity. }
  split.
  - intros Hp. apply analyze_rejected. left.
    unfold validate_url, isValidUrl. cbn [body Frontend.request_body assoc String.eqb Ascii.eqb Bool.eqb].
    rewrite Ht, Hp. reflexivity.
  - intros Hp.
    assert (Hu : validate_url (Str formattedUrl) = None).
    { unfold validate_url, isValidUrl. rewrite Ht, Hp. reflexivity. }
    exists (params_of (Str formattedUrl) (Str strategy) [Str "performance"]).
    split.
    + rewrite (analyze_run PAGESPEED_API_KEY w body
                 (params_of (Str formattedUrl) (Str strategy) [Str "performance"]));
        try assumption; try reflexivity; try apply build_params_Arr.
    + rewrite !assoc_params_of by reflexivity.
      rewrite params_of_category by discriminate.
      destruct (truthy (key_value PAGESPEED_API_KEY)); repeat split; reflexivity.
Qed.

(** *** What the frontend shows *)

Lemma analyze_catch_message (w : world) (e : js_error) (r : http_response) t :
  run w (analyze_catch e) = (Ok r, t) ->
  (exists m, get_opt (json r) "message" = Str m /\ m <> "")
  /\ get_opt (json r) "success" = Undefined.
Proof.
  destruct (response e) as [[st errorData] |] eqn:Hresp.
  - rewrite (analyze_catch_response e st errorData Hresp).
    destruct (st =? 403);
      [intros H; inversion H; split;
         [eexists; split; [reflexivity | discriminate] | reflexivity] |].
    destruct (st =? 429);
      [intros H; inversion H; split;
         [eexists; split; [reflexivity | discriminate] | reflexivity] |].
    destruct (ToString (upstream_message errorData)) as [text |];
      [| discriminate].
    intros H. inversion H. unfold api_error.
    destruct (st =? 400); split;
      try reflexivity; eexists; split; try reflexivity; discriminate.
  - rewrite (analyze_catch_transport e Hresp).
    intros H. inversion H.
    destruct (match code e with Some c => String.eqb c "ECONNABORTED" | None => false end);
      split; try reflexivity; eexists; split; try reflexivity; discriminate.
Qed.

Lemma validate_url_message url r :
  validate_url url = Some r ->
  (exists m, get_opt (json r) "message" = Str m /\ m <> "")
  /\ get_opt (json r) "success" = Undefined.
Proof.
  unfold validate_url.
  destruct (truthy url).
  - destruct (isValidUrl url); [discriminate |].
    intros H. inversion H.
    split; [eexists; split; [reflexivity | discriminate] | reflexivity].
  - intros H. inversion H.
    split; [eexists; split; [reflexivity | discriminate] | reflexivity].
Qed.

Lemma validate_strategy_message strategy r :
  validate_strategy strategy = Some r ->
  (exists m, get_opt (json r) "message" = Str m /\ m <> "")
  /\ get_opt (json r) "success" = Undefined.
Proof.
  unfold validate_strategy.
  destruct (includes _ strategy); [discriminate |].
  intros H. inversion H.
  split; [eexists; split; [reflexivity | discriminate] | reflexivity].
Qed.

(** X18.  Every answer of [POST /api/pagespeed] is either a 200 with
    [success: true] and a truthy [data], or has no [success] and a
    non-empty string [message]; from an error body with that [message]
    the frontend computes that very message, never its default. *)
Theorem every_failure_carries_the_message_shown
  (w : world) (body : list (string * value)) (r : http_response) :
  fst (run w (analyze body)) = Ok r ->
  (status r = 200
   /\ get_opt (json r) "success" = Bool true
   /\ truthy (get_opt (json r) "data") = true)
  \/ (exists m,
        get_opt (json r) "message" = Str m
        /\ m <> ""
        /\ get_opt (json r) "success" = Undefined
        /\ forall errorData statusText,
             get_opt errorData "message" = Str m ->
             Frontend.errorMessage (Some errorData) statusText = Str m).
Proof.
  assert (Hfail : forall r,
            (exists m, get_opt (json r) "message" = Str m /\ m <> "")
            /\ get_opt (json r) "success" = Undefined ->
            exists m,
              get_opt (json r) "message" = Str m
              /\ m <> ""
              /\ get_opt (json r) "success" = Undefined
              /\ forall errorData statusText,
                   get_opt errorData "message" = Str m ->
                   Frontend.errorMessage (Some errorData) statusText = Str m).
  { intros r0 [(m & Hm & Hne) Hs]. exists m. repeat split; auto.
    intros errorData statusText Hget. unfold Frontend.errorMessage.
    destruct errorData; try discriminate. cbn [nullish]. rewrite Hget.
    unfold or_else. cbn [truthy].
    destruct (String.eqb_spec m ""); [contradiction | reflexivity]. }
  set (url := assoc "url" body).
  set (strategy := with_default (assoc "strategy" body) (Str "mobile")).
  set (categories := with_default (assoc "categories" body) (Arr [Str "performance"])).
  destruct (validate_url url) as [r0 |] eqn:Hu.
  { rewrite (analyze_rejected PAGESPEED_API_KEY w body r0) by (left; exact Hu).
    intros H. inversion H; subst r0. right. apply Hfail.
    apply (validate_url_message url r Hu). }
  destruct (validate_strategy strategy) as [r0 |] eqn:Hs.
  { rewrite (analyze_rejected PAGESPEED_API_KEY w body r0) by (right; auto).
    intros H. inversion H; subst r0. right. apply Hfail.
    apply (validate_strategy_message strategy r Hs). }
  destruct (not_an_array categories) eqn:Hc.
  { rewrite (analyze_not_an_array w body Hu Hs Hc).
    intros H. inversion H. right. apply Hfail.
    split; [eexists; split; [reflexivity | discriminate] | reflexivity]. }
  destruct categories as [| | | | | cats |] eqn:Ec; try discriminate.
  rewrite (analyze_run PAGESPEED_API_KEY w body (params_of url strategy cats) Hu Hs);
    [| fold categories; rewrite Ec; apply build_params_Arr].
  cbn [fst].
  destruct (upstream w (pagespeed_config (params_of url strategy cats))) as [data | e].
  - intros H. inversion H. destruct (payload_ok data).
    + left. repeat split; reflexivity.
    + right. apply Hfail.
      split; [eexists; split; [reflexivity | discriminate] | reflexivity].
  - intros H. right. apply Hfail.
    destruct (run w (analyze_catch e)) as [r1 t] eqn:E. simpl in H. subst r1.
    apply (analyze_catch_message w e r t E).
Qed.

Lemma rounded_score_cases (s : float) :
  (0 <=? s)%float = true -> (s <=? 1)%float = true ->
  exists (negative : bool) (z : Z),
    Math_round (s * 100) = int_float negative z
    /\ 0 <= z <= 100
    /\ (negative = true -> z = 0).
Proof.
  intros H0 H1.
  destruct (score_times_100 s H0 H1) as [[b Hz] | (m & e & Hf & He & Hd)].
  - exists b, 0. split; [| split; [lia | reflexivity]].
    unfold Math_round. rewrite Hz.
    rewrite <- (SF2Prim_Prim2SF (s * 100)), Hz. destruct b; reflexivity.
  - exists false, (round_half_up (SF2Q (Prim2SF (s * 100)))).
    split; [| split; [| discriminate]].
    + unfold Math_round. rewrite Hf.
      replace (0 <=? e)%Z with false; [reflexivity |].
      symmetry. apply Z.leb_gt. assumption.
    + apply round_half_up_le.
      * rewrite Hf. apply SF2Q_nonneg.
      * apply (score_times_100_le s H0 H1).
Qed.

Lemma score_bands_table :
  forallb (fun n =>
             let z := Z.of_nat n in
             let x := int_float false z in
             is_integer x z
             && String.eqb (Frontend.getScoreLabel x)
                  (if 90 <=? z then "Good"
                   else if 50 <=? z then "Needs Improvement" else "Poor")
             && String.eqb (Frontend.getScoreColor x)
                  (if 90 <=? z then "text-green-600"
                   else if 50 <=? z then "text-orange-500" else "text-red-600"))
    (seq 0 101) = true.
Proof. vm_compute. reflexivity. Qed.

Lemma score_bands (negative : bool) (z : Z) :
  0 <= z <= 100 -> (negative = true -> z = 0) ->
  let x := int_float negative z in
  is_integer x z = true
  /\ Frontend.getScoreLabel x
     = (if 90 <=? z then "Good"
        else if 50 <=? z then "Needs Improvement" else "Poor")
  /\ Frontend.getScoreColor x
     = (if 90 <=? z then "text-green-600"
        else if 50 <=? z then "text-orange-500" else "text-red-600").
Proof.
  intros Hz Hn x. subst x.
  destruct negative.
  - rewrite (Hn eq_refl). repeat split; reflexivity.
  - pose proof score_bands_table as T. rewrite forallb_forall in T.
    specialize (T (Z.to_nat z)). cbv zeta in T. rewrite Z2Nat.id in T by lia.
    assert (Hin : In (Z.to_nat z) (seq 0 101)) by (apply in_seq; lia).
    apply T in Hin. apply andb_prop in Hin. destruct Hin as [Hin H3].
    apply andb_prop in Hin. destruct Hin as [H1 H2].
    apply String.eqb_eq in H2, H3. auto.
Qed.

(** X19.  For a metric score in [0, 1], [formatMetricScore] and
    [formatMetricDisplay] agree on an integer between 0 and 100, and the
    colour is green from 90, orange from 50 and red below. *)
Theorem metric_score_is_shown_as_0_to_100 (s : float) :
  (0 <=? s)%float = true ->
  (s <=? 1)%float = true ->
  exists (x : float) (z : Z),
    Frontend.formatMetricScore (Num s) = Some (Num x)
    /\ Frontend.formatMetricDisplay (Num s) = Some (Num x)
    /\ is_integer x z = true
    /\ 0 <= z <= 100
    /\ Frontend.getScoreColor x
       = (if 90 <=? z then "text-green-600"
          else if 50 <=? z then "text-orange-500" else "text-red-600").
Proof.
  intros H0 H1.
  destruct (rounded_score_cases s H0 H1) as (negative & z & Hr & Hz & Hn).
  destruct (score_bands negative z Hz Hn) as (Hi & _ & Hc).
  exists (int_float negative z), z.
  unfold Frontend.formatMetricScore, Frontend.formatMetricDisplay, mul.
  cbn [ToNumber option_map]. rewrite Hr. auto.
Qed.

(** X20.  For a category score in [0, 1] the frontend labels the report's
    [performanceScore] [Good] from 90, [Needs Improvement] from 50 and
    [Poor] below, with the matching colour. *)
Theorem score_label_follows_rounded_score
  (w : world) (url strategy data report : value) (t : list request_config)
  (s : float) :
  run w (extract_report url strategy data) = (Ok report, t) ->
  category_score data = Num s ->
  (0 <=? s)%float = true ->
  (s <=? 1)%float = true ->
  exists (x : float) (z : Z),
    get_opt report "performanceScore" = Num x
    /\ is_integer x z = true
    /\ 0 <= z <= 100
    /\ Frontend.getScoreLabel x
       = (if 90 <=? z then "Good"
          else if 50 <=? z then "Needs Improvement" else "Poor")
    /\ Frontend.getScoreColor x
       = (if 90 <=? z then "text-green-600"
          else if 50 <=? z then "text-orange-500" else "text-red-600").
Proof.
  intros H Hs H0 H1.
  apply extract_report_Ok in H. destruct H as (-> & _ & _).
  destruct (rounded_score_cases s H0 H1) as (negative & z & Hr & Hz & Hn).
  destruct (score_bands negative z Hz Hn) as (Hi & Hl & Hc).
  exists (int_float negative z), z.
  split; [| auto].
  unfold report_of. cbn [get_opt assoc String.eqb Ascii.eqb Bool.eqb].
  rewrite Hs. unfold number_of. cbn [ToNumber]. rewrite Hr. reflexivity.
Qed.
End MoreHandlerFacts.

(** ** The further properties on sample requests *)

Section MoreWitnesses.
Import Samples MoreSamples.

Local Abbreviation analyze := (Server.analyze (rt := sample_runtime)).
Local Abbreviation compare := (Server.compare (rt := sample_runtime)).
Local Abbreviation report_of := (report_of (rt := sample_runtime)).

(** X2: the upstream answers 503. *)
Lemma upstream_status_is_passed_through_witness :
  exists r,
    run (answering (Rejected unavailable)) (analyze None [("url", example_url)])
    = (Ok r, [pagespeed_config [("url", example_url); ("strategy", Str "mobile");
                                ("category", Str "performance")]])
    /\ status r = 503.
Proof.
  apply (upstream_status_is_passed_through (rt := sample_runtime) None
           (answering (Rejected unavailable)) [("url", example_url)]
           [("url", example_url); ("strategy", Str "mobile");
            ("category", Str "performance")]
           unavailable 503
           (Obj [("error",
                  Obj [("code", Num 503);
                       ("message", Str "The service is currently unavailable.")])])).
  - repeat split; reflexivity.
  - reflexivity.
  - reflexivity.
  - right. right. discriminate.
Defined.

(** X3: the message of that answer. *)
Lemma upstream_message_is_surfaced_or_defaulted_witness :
  exists r,
    fst (run (answering (Rejected unavailable)) (analyze None [("url", example_url)]))
    = Ok r
    /\ get_opt (json r) "message"
       = Str "Google API Error: The service is currently unavailable.".
Proof.
  destruct (upstream_message_is_surfaced_or_defaulted (rt := sample_runtime) None
              (answering (Rejected unavailable)) [("url", example_url)]
              [("url", example_url); ("strategy", Str "mobile");
               ("category", Str "performance")]
              unavailable 503
              (Obj [("error",
                     Obj [("code", Num 503);
                          ("message", Str "The service is currently unavailable.")])]))
    as [_ Hm].
  - repeat split; reflexivity.
  - reflexivity.
  - reflexivity.
  - lia.
  - lia.
  - apply (Hm "The service is currently unavailable."); [reflexivity | discriminate].
Defined.

(** X21: the upstream answers 400 with a message that is an object whose
    [toString] is the number 1. *)
Lemma unconvertible_message_leaves_the_catch_witness :
  exists err,
    run (answering (Rejected bad_request_with_object_message))
        (analyze None [("url", example_url)])
    = (Err err, [pagespeed_config [("url", example_url); ("strategy", Str "mobile");
                                   ("category", Str "performance")]])
    /\ is_TypeError err.
Proof.
  apply (unconvertible_message_leaves_the_catch (rt := sample_runtime) None
           (answering (Rejected bad_request_with_object_message))
           [("url", example_url)]
           [("url", example_url); ("strategy", Str "mobile");
            ("category", Str "performance")]
           bad_request_with_object_message).
  - repeat split; reflexivity.
  - reflexivity.
  - exists 400, (Obj [("error", Obj [("message", Obj [("toString", Num 1)])])]).
    repeat split; try reflexivity; lia.
Defined.

(** X4: the call times out. *)
Lemma transport_failures_are_timeout_or_internal_witness :
  run (answering (Rejected timeout_error))
      (analyze (Some "key") [("url", example_url); ("strategy", Str "desktop")])
  = (Ok Timeout,
     [pagespeed_config [("url", example_url); ("strategy", Str "desktop");
                        ("key", Str "key"); ("category", Str "performance")]]).
Proof.
  apply (transport_failures_are_timeout_or_internal (rt := sample_runtime)
           (Some "key") (answering (Rejected timeout_error))
           [("url", example_url); ("strategy", Str "desktop")]
           [("url", example_url); ("strategy", Str "desktop");
            ("key", Str "key"); ("category", Str "performance")]
           timeout_error).
  - repeat split; reflexivity.
  - reflexivity.
  - reflexivity.
Defined.

(** X5: a desktop request with a configured key. *)
Lemma query_carries_url_strategy_and_key_witness :
  exists params,
    snd (run (answering (Fulfilled (full_payload (Num 0.9))))
           (analyze (Some "key") [("url", example_url); ("strategy", Str "desktop")]))
    = [{| cfg_url := PAGESPEED_API_URL; cfg_params := params; cfg_timeout := 30000 |}]
    /\ assoc "url" params = example_url
    /\ assoc "strategy" params = Str "desktop"
    /\ assoc "key" params = Str "key".
Proof.
  apply (query_carries_url_strategy_and_key (rt := sample_runtime) (Some "key")
           (answering (Fulfilled (full_payload (Num 0.9))))
           [("url", example_url); ("strategy", Str "desktop")]
           [Str "performance"]).
  - reflexivity.
  - reflexivity.
  - reflexivity.
Defined.

(** X6: a body with a url only. *)
Lemma omitted_strategy_and_categories_default_witness :
  snd (run (answering (Fulfilled (full_payload (Num 0.9))))
         (analyze None [("url", example_url)]))
  = [pagespeed_config [("url", example_url); ("strategy", Str "mobile");
                       ("category", Str "performance")]].
Proof.
  apply (omitted_strategy_and_categories_default (rt := sample_runtime) None
           (answering (Fulfilled (full_payload (Num 0.9))))
           [("url", example_url)]).
  - reflexivity.
  - reflexivity.
  - reflexivity.
Defined.

(** X7: an empty array of categories. *)
Lemma empty_categories_send_no_category_witness :
  exists params,
    snd (run (answering (Fulfilled (full_payload (Num 0.9))))
           (analyze None [("url", example_url); ("categories", Arr [])]))
    = [pagespeed_config params]
    /\ filter is_category params = [].
Proof.
  apply (empty_categories_send_no_category (rt := sample_runtime) None
           (answering (Fulfilled (full_payload (Num 0.9))))
           [("url", example_url); ("categories", Arr [])]).
  - reflexivity.
  - reflexivity.
  - reflexivity.
Defined.

(** X8: the category given as a string instead of an array. *)
Lemma categories_that_are_no_array_answer_500_witness :
  run (answering (Fulfilled (full_payload (Num 0.9))))
      (analyze None [("url", example_url); ("categories", Str "performance")])
  = (Ok Internal_Server_Error, []).
Proof.
  apply (categories_that_are_no_array_answer_500 (rt := sample_runtime) None
           (answering (Fulfilled (full_payload (Num 0.9))))
           [("url", example_url); ("categories", Str "performance")]).
  - reflexivity.
  - reflexivity.
  - discriminate.
  - reflexivity.
Defined.

(** X9: a payload with all five metrics. *)
Lemma analyze_succeeds_exactly_on_well_formed_payloads_witness :
  exists r,
    run (answering (Fulfilled (full_payload (Num 0.9))))
        (analyze None [("url", example_url)])
    = (Ok r, [pagespeed_config [("url", example_url); ("strategy", Str "mobile");
                                ("category", Str "performance")]])
    /\ (status r = 200
        <-> payload_ok (rt := sample_runtime) (full_payload (Num 0.9)) = true)
    /\ (payload_ok (rt := sample_runtime) (full_payload (Num 0.9)) = false ->
        r = Internal_Server_Error).
Proof.
  apply (analyze_succeeds_exactly_on_well_formed_payloads (rt := sample_runtime) None
           (answering (Fulfilled (full_payload (Num 0.9))))
           [("url", example_url)]
           [("url", example_url); ("strategy", Str "mobile");
            ("category", Str "performance")]
           (full_payload (Num 0.9))).
  - repeat split; reflexivity.
  - reflexivity.
Defined.

(** X22: a payload that is well formed but for one audit, whose savings
    are such an object. *)
Lemma unconvertible_numbers_answer_500_witness :
  run (answering
         (Fulfilled (payload (Num 0.9)
                       (five_metrics total_blocking_time
                        ++ [("uses-http2", audit_with_object_savings)]))))
      (analyze None [("url", example_url)])
  = (Ok Internal_Server_Error,
     [pagespeed_config [("url", example_url); ("strategy", Str "mobile");
                        ("category", Str "performance")]]).
Proof.
  apply (unconvertible_numbers_answer_500 (rt := sample_runtime) None
           (answering
              (Fulfilled (payload (Num 0.9)
                            (five_metrics total_blocking_time
                             ++ [("uses-http2", audit_with_object_savings)]))))
           [("url", example_url)]
           [("url", example_url); ("strategy", Str "mobile");
            ("category", Str "performance")]
           (payload (Num 0.9)
              (five_metrics total_blocking_time
               ++ [("uses-http2", audit_with_object_savings)]))).
  - repeat split; reflexivity.
  - reflexivity.
  - right. exists "uses-http2", audit_with_object_savings.
    split; [| split; reflexivity].
    simpl. auto 10.
Defined.

(** X10: a payload without field data and without a screenshot. *)
Lemma optional_fields_pass_through_or_null_witness :
  exists report,
    run (answering (Fulfilled Null))
        (extract_report (rt := sample_runtime) example_url (Str "mobile")
           (full_payload (Num 0.9)))
    = (Ok report, [])
    /\ get_opt report "url" = example_url
    /\ get_opt report "strategy" = Str "mobile"
    /\ get_opt report "timestamp" = Str timestamp
    /\ get_opt report "fieldData" = Null
    /\ get_opt report "screenshot" = Null.
Proof.
  apply (optional_fields_pass_through_or_null (rt := sample_runtime)
           (answering (Fulfilled Null)) example_url (Str "mobile")
           (full_payload (Num 0.9))).
  reflexivity.
Defined.

(** X11: seven audits, five of which qualify. *)
Lemma opportunities_are_at_most_five_and_above_threshold_witness :
  exists opportunities,
    get_opt (report_of example_url (Str "mobile") (full_payload (Num 0.9)) timestamp)
      "opportunities" = Arr opportunities
    /\ (List.length opportunities <= 5)%nat
    /\ List.length opportunities = 5%nat
    /\ Forall (fun o => gt (rt := sample_runtime) (get_opt o "savings") 100 = Some true)
         opportunities.
Proof.
  apply (opportunities_are_at_most_five_and_above_threshold (rt := sample_runtime)
           (answering (Fulfilled Null)) example_url (Str "mobile")
           (full_payload (Num 0.9))
           (report_of example_url (Str "mobile") (full_payload (Num 0.9)) timestamp)
           []).
  reflexivity.
Defined.

(** X12: a category score of 0.873. *)
Lemma performanceScore_is_between_0_and_100_witness :
  exists (negative : bool) (z : Z),
    get_opt (report_of example_url (Str "mobile") (full_payload (Num 0.873)) timestamp)
      "performanceScore" = Num (int_float negative z)
    /\ 0 <= z <= 100
    /\ is_integer (int_float negative z) z = true.
Proof.
  apply (performanceScore_is_between_0_and_100 (rt := sample_runtime)
           (answering (Fulfilled Null)) example_url (Str "mobile")
           (full_payload (Num 0.873))
           (report_of example_url (Str "mobile") (full_payload (Num 0.873)) timestamp)
           [] 0.873).
  - reflexivity.
  - reflexivity.
  - reflexivity.
  - reflexivity.
Defined.

(** X13: a comparison without a url. *)
Lemma compare_rejects_bad_url_locally_witness :
  exists r,
    run (answering (Fulfilled (full_payload (Num 0.9)))) (compare (Some "key") [])
    = (Ok r, [])
    /\ status r = 400
    /\ get_opt (json r) "error" = Str "Invalid URL".
Proof.
  apply (compare_rejects_bad_url_locally (rt := sample_runtime) (Some "key")
           (answering (Fulfilled (full_payload (Num 0.9)))) []).
  left. reflexivity.
Defined.

(** X15: mobile scores 0.873 and desktop 0.5. *)
Lemma compare_scores_are_between_0_and_100_witness :
  exists r (negative : bool) (z : Z),
    fst (run (settling (Fulfilled (full_payload (Num 0.873)))
                (Fulfilled (full_payload (Num 0.5))))
           (compare (Some "key") [("url", example_url)]))
    = Ok r
    /\ status r = 200
    /\ get_opt (get_opt (json r) "data") "mobile"
       = Obj [("score", Num (int_float negative z)); ("status", Str "success")]
    /\ 0 <= z <= 100.
Proof.
  apply (compare_scores_are_between_0_and_100 (rt := sample_runtime) (Some "key")
           (settling (Fulfilled (full_payload (Num 0.873)))
              (Fulfilled (full_payload (Num 0.5))))
           [("url", example_url)] (full_payload (Num 0.873)) 0.873
           "mobile" "desktop").
  - reflexivity.
  - reflexivity.
  - left. reflexivity.
  - reflexivity.
  - reflexivity.
  - reflexivity.
  - reflexivity.
  - reflexivity.
Defined.

(** X17: the user types [ example.com ] and keeps the mobile strategy. *)
Lemma frontend_request_is_rejected_or_sent_with_one_category_witness :
  Frontend.formatUrl trim "  example.com " = Some "https://example.com"
  /\ exists params,
       snd (run (answering (Fulfilled (full_payload (Num 0.9))))
              (analyze None (Frontend.request_body "https://example.com" "mobile")))
       = [pagespeed_config params]
       /\ assoc "url" params = Str "https://example.com"
       /\ assoc "strategy" params = Str "mobile"
       /\ filter is_category params = [("category", Str "performance")].
Proof.
  split; [reflexivity |].
  apply (frontend_request_is_rejected_or_sent_with_one_category
           (rt := sample_runtime) None trim
           (answering (Fulfilled (full_payload (Num 0.9))))
           "  example.com " "https://example.com" "mobile").
  - reflexivity.
  - left. reflexivity.
  - reflexivity.
Defined.

(** X18: the answer to an upstream 503, and what the frontend makes of
    its body. *)
Lemma every_failure_carries_the_message_shown_witness :
  fst (run (answering (Rejected unavailable)) (analyze None [("url", example_url)]))
  = Ok (res_json 503 (Obj [
          ("error", Str "API Error");
          ("message",
           Str "Google API Error: The service is currently unavailable.")]))
  /\ Frontend.errorMessage
       (Some (Obj [("error", Str "API Error");
                   ("message",
                    Str "Google API Error: The service is currently unavailable.")]))
       "Service Unavailable"
     = Str "Google API Error: The service is currently unavailable.".
Proof.
  split; [reflexivity |].
  destruct (every_failure_carries_the_message_shown (rt := sample_runtime) None
              (answering (Rejected unavailable)) [("url", example_url)]
              (res_json 503 (Obj [
                 ("error", Str "API Error");
                 ("message",
                  Str "Google API Error: The service is currently unavailable.")]))
              eq_refl)
    as [(H & _) | (m & Hm & _ & _ & Hshow)].
  - discriminate H.
  - transitivity (Str m); [| symmetry; exact Hm].
    apply (Hshow (Obj [("error", Str "API Error");
                       ("message",
                        Str "Google API Error: The service is currently unavailable.")])
             "Service Unavailable").
    exact Hm.
Defined.

(** X19: a metric score of 0.98. *)
Lemma metric_score_is_shown_as_0_to_100_witness :
  exists (x : float) (z : Z),
    Frontend.formatMetricScore (rt := sample_runtime) (Num 0.98) = Some (Num x)
    /\ Frontend.formatMetricDisplay (rt := sample_runtime) (Num 0.98) = Some (Num x)
    /\ is_integer x z = true
    /\ 0 <= z <= 100
    /\ Frontend.getScoreColor x
       = (if 90 <=? z then "text-green-600"
          else if 50 <=? z then "text-orange-500" else "text-red-600").
Proof.
  apply (metric_score_is_shown_as_0_to_100 (rt := sample_runtime) 0.98).
  - reflexivity.
  - reflexivity.
Defined.

(** X20: a category score of 0.873. *)
Lemma score_label_follows_rounded_score_witness :
  exists (x : float) (z : Z),
    get_opt (report_of example_url (Str "mobile") (full_payload (Num 0.873)) timestamp)
      "performanceScore" = Num x
    /\ is_integer x z = true
    /\ 0 <= z <= 100
    /\ Frontend.getScoreLabel x
       = (if 90 <=? z then "Good"
          else if 50 <=? z then "Needs Improvement" else "Poor")
    /\ Frontend.getScoreColor x
       = (if 90 <=? z then "text-green-600"
          else if 50 <=? z then "text-orange-500" else "text-red-600").
Proof.
  apply (score_label_follows_rounded_score (rt := sample_runtime)
           (answering (Fulfilled Null)) example_url (Str "mobile")
           (full_payload (Num 0.873))
           (report_of example_url (Str "mobile") (full_payload (Num 0.873)) timestamp)
           [] 0.873).
  - reflexivity.
  - reflexivity.
  - reflexivity.
  - reflexivity.
Defined.

End MoreWitnesses.
